(** * Study Buddy: revision schedule, aggregation, status and calendar index

    A shallow embedding of the screens of the study tracker
    (frontend/app/index.tsx, add-topic.tsx, edit-topic/[id].tsx, the subject
    detail screen and the subjects screen) and of the operations of the
    persistent store they talk to.

    Conventions of the embedding.
    - A JavaScript string is a [string]: a sequence of code units, here the
      code units below 256.
    - A JavaScript integer-valued number is a [Z]; an array length is a [nat].
    - A [Date] is its time value in milliseconds; the local time zone is taken
      to be UTC with no daylight-saving shifts.
    - A plain object used as a dictionary is a [gmap string _].
    - An event handler is a function from the screen state and the answers of
      the outside world (clock, platform, store responses) to the new state
      and the list of effects it performed, in program order. *)

From Stdlib Require Import ZArith List Bool Ascii String DecimalString Lia Permutation Sorted.
From stdpp Require Import base option list gmap strings.
Import ListNotations.

Local Open Scope Z_scope.

(** ** JavaScript primitives used by the screens *)

Module JS.

(** ECMAScript WhiteSpace and LineTerminator code units below 256:
    TAB, LF, VT, FF, CR, SP and NBSP. *)
Definition isWhiteSpace (c : ascii) : bool :=
  let n := N_of_ascii c in
  ((9 <=? n) && (n <=? 13) || (n =? 32) || (n =? 160))%N.

Definition whitespaceOnly (s : string) : bool :=
  forallb isWhiteSpace (list_ascii_of_string s).

Fixpoint trimStart (s : string) : string :=
  match s with
  | EmptyString => EmptyString
  | String c s' => if isWhiteSpace c then trimStart s' else s
  end.

Definition trimEnd (s : string) : string :=
  String.rev (trimStart (String.rev s)).

(** [String.prototype.trim] *)
Definition trim (s : string) : string := trimEnd (trimStart s).

(** ToBoolean on a string: only the empty string is falsy. *)
Definition truthy (s : string) : bool :=
  match s with
  | EmptyString => false
  | String _ _ => true
  end.

(** [x || 0] on an optional number: [undefined] and [0] give [0]. *)
Definition orZero (x : option Z) : Z :=
  match x with
  | Some n => if n =? 0 then 0 else n
  | None => 0
  end.

(** [Array.prototype.sort] with a comparator.  The comparator yields a
    number, or [None] for NaN, which the sort treats as [+0].  The sort is
    stable; it is embedded as a stable insertion sort, which agrees with
    every stable sort whenever the comparator is a consistent one. *)
Section Sort.
Context {A : Type} (cmp : A -> A -> option Z).

Definition swaps (a b : A) : bool :=
  match cmp a b with
  | Some v => 0 <? v
  | None => false
  end.

Fixpoint insert_sorted (x : A) (l : list A) : list A :=
  match l with
  | [] => [x]
  | y :: l' => if swaps x y then y :: insert_sorted x l' else x :: l
  end.

Definition sort (l : list A) : list A := fold_right insert_sorted [] l.
End Sort.

(** [x || fallback] on an optional string: [undefined] and the empty
    string give the fallback. *)
Definition orString (x : option string) (fallback : string) : string :=
  match x with
  | Some d => if truthy d then d else fallback
  | None => fallback
  end.

(** Number to string conversion, for integers. *)
Definition numberToString (n : Z) : string :=
  NilZero.string_of_int (Z.to_int n).

(** JSON values that occur in request bodies. *)
Inductive Json :=
| JStr (s : string)
| JNum (n : Z).

End JS.

(** ** date-fns and [Date] *)

Module DateFns.

Record Date := mkDate { getTime : Z }.

Definition msPerDay : Z := 86400000.

(** Number of the calendar day (days since 1970-01-01) and time of day. *)
Definition epochDay (d : Date) : Z := getTime d / msPerDay.
Definition msOfDay (d : Date) : Z := getTime d mod msPerDay.

(** [addDays(date, amount)]: same wall-clock time, [amount] calendar days
    later. *)
Definition addDays (d : Date) (amount : Z) : Date :=
  mkDate ((epochDay d + amount) * msPerDay + msOfDay d).

(** [date.setHours(h, m, s, ms)] *)
Definition setHours (d : Date) (h m s ms : Z) : Date :=
  mkDate (epochDay d * msPerDay + ((h * 60 + m) * 60 + s) * 1000 + ms).

(** [a > b] on dates compares time values. *)
Definition after (a b : Date) : bool := getTime b <? getTime a.

(** Civil date (year, month, day) of a day number, proleptic Gregorian. *)
Definition civil_from_days (days : Z) : Z * Z * Z :=
  let z := days + 719468 in
  let era := z / 146097 in
  let doe := z - era * 146097 in
  let yoe := (doe - doe / 1460 + doe / 36524 - doe / 146096) / 365 in
  let doy := doe - (365 * yoe + yoe / 4 - yoe / 100) in
  let mp := (5 * doy + 2) / 153 in
  let d := doy - (153 * mp + 2) / 5 + 1 in
  let m := if mp <? 10 then mp + 3 else mp - 9 in
  let y := yoe + era * 400 + (if m <=? 2 then 1 else 0) in
  (y, m, d).

Definition days_from_civil (y m d : Z) : Z :=
  let y' := if m <=? 2 then y - 1 else y in
  let era := y' / 400 in
  let yoe := y' - era * 400 in
  let mp := if 2 <? m then m - 3 else m + 9 in
  let doy := (153 * mp + 2) / 5 + d - 1 in
  let doe := yoe * 365 + yoe / 4 - yoe / 100 + doy in
  era * 146097 + doe - 719468.

Definition digit (n : Z) : ascii := ascii_of_N (48 + Z.to_N (n mod 10)).

(** The [width] low decimal digits of [n], zero padded. *)
Fixpoint pad (width : nat) (n : Z) (acc : string) : string :=
  match width with
  | O => acc
  | S w => pad w (n / 10) (String (digit n) acc)
  end.

Definition monthShort (m : Z) : string :=
  nth (Z.to_nat (m - 1))
    ["Jan"; "Feb"; "Mar"; "Apr"; "May"; "Jun";
     "Jul"; "Aug"; "Sep"; "Oct"; "Nov"; "Dec"] "Jan".

(** The ['yyyy-MM-dd'] rendering of a day number, for the years 0 to 9999. *)
Definition isoOfDay (day : Z) : string :=
  let '(y, m, dd) := civil_from_days day in
  pad 4 y (String "-" (pad 2 m (String "-" (pad 2 dd EmptyString)))).

(** [format(date, 'yyyy-MM-dd')] *)
Definition format_yyyy_MM_dd (d : Date) : string := isoOfDay (epochDay d).

(** [format(date, 'dd MMM yyyy')], for the years 0 to 9999. *)
Definition format_dd_MMM_yyyy (d : Date) : string :=
  let '(y, m, dd) := civil_from_days (epochDay d) in
  pad 2 dd (String " " (monthShort m +:+ String " " (pad 4 y EmptyString))).

Definition digitValue (c : ascii) : option Z :=
  let n := N_of_ascii c in
  if ((48 <=? n) && (n <=? 57))%N then Some (Z.of_N n - 48) else None.

(** The value of a run of decimal digits; [None] if one is not a digit. *)
Definition digitsValue (cs : list ascii) : option Z :=
  fold_left (fun acc c =>
               match acc, digitValue c with
               | Some n, Some v => Some (10 * n + v)
               | _, _ => None
               end) cs (Some 0).

(** A date parser for the examples: the time value of a date-only ISO
    string ['yyyy-MM-dd'] that names an existing day, which is midnight of
    that day; it is left undefined on every other string. *)
Definition parseDateOnly (s : string) : option Z :=
  match list_ascii_of_string s with
  | [y1; y2; y3; y4; sep1; m1; m2; sep2; d1; d2] =>
      match digitsValue [y1; y2; y3; y4], digitsValue [m1; m2], digitsValue [d1; d2] with
      | Some y, Some m, Some d =>
          if Ascii.eqb sep1 "-" && Ascii.eqb sep2 "-"
             && String.eqb (isoOfDay (days_from_civil y m d)) s
          then Some (days_from_civil y m d * msPerDay)
          else None
      | _, _, _ => None
      end
  | _ => None
  end.

(** A [Date] at local midnight of a civil date. *)
Definition ofCivil (y m d : Z) : Date :=
  mkDate (days_from_civil y m d * msPerDay).

End DateFns.

(** ** Data model: the interfaces declared by the screens *)

Module Model.

(** An element of [Topic['revision_dates']]. *)
Record RevisionDate := mkRevisionDate {
  rd_date : string;
  rd_day_number : Z;
  rd_completed : bool
}.

Record Topic := mkTopic {
  t_id : string;
  t_subject_id : string;
  t_subject_name : string;
  t_name : string;
  t_notes : string;
  t_created_at : string;
  t_revision_dates : list RevisionDate
}.

Record Subject := mkSubject {
  s_id : string;
  s_name : string;
  s_created_at : string
}.

(** [interface Revision] of the home screen; [r_id] is the topic's id. *)
Record Revision := mkRevision {
  r_id : string;
  r_topic_name : string;
  r_subject_name : string;
  r_subject_id : string;
  r_notes : string;
  r_day_number : Z;
  r_revision_date : string;
  r_created_at : option string
}.

(** The data-model invariant of a topic: its checkpoints are the day-2,
    day-7 and day-14 ones. *)
Definition wf_topic (t : Topic) : Prop :=
  map rd_day_number (t_revision_dates t) = [2; 7; 14].

End Model.

(** ** Effects and answers of the outside world *)

Module World.

Inductive OS := ios | android | windows | macos | web.

Definition OS_eqb (a b : OS) : bool :=
  match a, b with
  | ios, ios | android, android | windows, windows
  | macos, macos | web, web => true
  | _, _ => false
  end.

(** The outcome of [await fetch(...)] followed by reading the body:
    a success response with its JSON payload, a non-success response with
    the [detail] field of its JSON error (when present), or a rejected
    promise. *)
Inductive Response (A : Type) :=
| Ok (data : A)
| Failed (detail : option string)
| Threw.
Arguments Ok {A} data.
Arguments Failed {A} detail.
Arguments Threw {A}.

(** The outcome of a listing request, in the steps the code takes it: the
    [fetch] promise rejects; it resolves to a non-success response; it
    resolves to a success response whose [json()] rejects; or the list is
    read. *)
Inductive Listing (A : Type) :=
| Unreachable
| Refused
| Unreadable
| Listed (data : A).
Arguments Unreachable {A}.
Arguments Refused {A}.
Arguments Unreadable {A}.
Arguments Listed {A} data.

(** The argument of [Notifications.scheduleNotificationAsync]. *)
Record NotificationRequest := mkNotification {
  n_title : string;
  n_body : string;
  n_data_topicName : string;
  n_data_subjectName : string;
  n_data_day : Z;
  n_trigger_date : DateFns.Date
}.

Inductive Effect :=
| Fetch (method url : string) (body : option (list (string * JS.Json)))
| Alert (title message : string)
| AlertThenBack (title message : string)
| ConsoleError (message : string)
| ScheduleNotification (req : NotificationRequest).

Definition isNetworkCall (e : Effect) : bool :=
  match e with
  | Fetch _ _ _ => true
  | _ => false
  end.

Definition notificationOf (e : Effect) : option NotificationRequest :=
  match e with
  | ScheduleNotification req => Some req
  | _ => None
  end.

(** The notification-scheduling calls among a list of effects, in order. *)
Definition notifications (es : list Effect) : list NotificationRequest :=
  omap notificationOf es.

End World.

(** ** The persistent store's core operations

    The server that owns the topics is not part of the client sources; its
    operations are embedded from their contracts. *)

Module Store.
Import Model DateFns.

(** Modelled from the spec: the store's checkpoint construction at topic
    creation is missing from the sources.  A checkpoint of day offset
    [day] is dated [creationDate] plus [day] calendar days, date-only, and
    starts incomplete. *)
Definition checkpoint (creationDate : Date) (day : Z) : RevisionDate :=
  {| rd_date := format_yyyy_MM_dd (addDays creationDate day);
     rd_day_number := day;
     rd_completed := false |}.

(** Modelled from the spec: [generate(creationDate)], the store's schedule
    generator, is missing from the sources.  It yields
    [Checkpoint(day=2), Checkpoint(day=7), Checkpoint(day=14)]. *)
Definition generate (creationDate : Date) : list RevisionDate :=
  [checkpoint creationDate 2; checkpoint creationDate 7;
   checkpoint creationDate 14].

(** Modelled from the spec: the failure of [markCompleted]. *)
Inductive Error := InvalidCheckpoint.

(** Modelled from the spec: setting a checkpoint's completed flag; only the
    flag is written. *)
Definition complete (rd : RevisionDate) : RevisionDate :=
  {| rd_date := rd_date rd;
     rd_day_number := rd_day_number rd;
     rd_completed := true |}.

(** Modelled from the spec: the checkpoint has that day offset. *)
Definition hasOffset (dayOffset : Z) (rd : RevisionDate) : bool :=
  rd_day_number rd =? dayOffset.

(** Modelled from the spec: the flag update of [markCompleted] on one
    checkpoint; a checkpoint of another day offset is left as it is. *)
Definition completeAt (dayOffset : Z) (rd : RevisionDate) : RevisionDate :=
  if hasOffset dayOffset rd then complete rd else rd.

(** Modelled from the spec: [markCompleted(topic, dayOffset)], the store's
    completion operation, is missing from the sources.  It fails with
    [InvalidCheckpoint] if no checkpoint of the topic has that day offset,
    and otherwise sets that checkpoint's completed flag. *)
Definition markCompleted (t : Topic) (dayOffset : Z) : Error + Topic :=
  if existsb (hasOffset dayOffset) (t_revision_dates t)
  then inr {| t_id := t_id t;
              t_subject_id := t_subject_id t;
              t_subject_name := t_subject_name t;
              t_name := t_name t;
              t_notes := t_notes t;
              t_created_at := t_created_at t;
              t_revision_dates :=
                map (completeAt dayOffset) (t_revision_dates t) |}
  else inl InvalidCheckpoint.

(** Modelled from the spec: the RevisionRecord projection joining one
    checkpoint to its owning topic and subject. *)
Record RevisionRecord := mkRecord {
  rr_date : string;
  rr_day : Z;
  rr_completed : bool;
  rr_topic_id : string;
  rr_topic_name : string;
  rr_notes : string;
  rr_subject_id : string;
  rr_subject_name : string
}.

(** Modelled from the spec: the record of one checkpoint of a topic. *)
Definition recordOf (t : Topic) (rd : RevisionDate) : RevisionRecord :=
  {| rr_date := rd_date rd;
     rr_day := rd_day_number rd;
     rr_completed := rd_completed rd;
     rr_topic_id := t_id t;
     rr_topic_name := t_name t;
     rr_notes := t_notes t;
     rr_subject_id := t_subject_id t;
     rr_subject_name := t_subject_name t |}.

(** Modelled from the spec: the records of a topic, in 1:1 correspondence
    with its checkpoints. *)
Definition recordsOf (t : Topic) : list RevisionRecord :=
  map (recordOf t) (t_revision_dates t).

(** Modelled from the spec: the flattened records of all topics. *)
Definition allRecords (topics : list Topic) : list RevisionRecord :=
  flat_map recordsOf topics.

(** Modelled from the spec: the checkpoint's date equals now's calendar
    date. *)
Definition isToday (now : string) (r : RevisionRecord) : bool :=
  String.eqb (rr_date r) now.

(** Modelled from the spec: the checkpoint's date is strictly after now's
    calendar date; ['yyyy-MM-dd'] dates are ordered as strings. *)
Definition isUpcoming (now : string) (r : RevisionRecord) : bool :=
  String.ltb now (rr_date r).

(** Modelled from the spec: a comparison as a comparator result. *)
Definition signOf (c : comparison) : Z :=
  match c with
  | Eq => 0
  | Lt => -1
  | Gt => 1
  end.

(** Modelled from the spec: the order of the upcoming records, ascending by
    date, then by subject name, then by topic name. *)
Definition upcomingOrder (a b : RevisionRecord) : option Z :=
  Some (match String.compare (rr_date a) (rr_date b) with
        | Eq => match String.compare (rr_subject_name a) (rr_subject_name b) with
                | Eq => signOf (String.compare (rr_topic_name a) (rr_topic_name b))
                | c => signOf c
                end
        | c => signOf c
        end).

(** Modelled from the spec: the aggregator's partitions, computed by the
    store behind the revision listing endpoints, are missing from the
    sources.  [today]: every checkpoint dated [now], across all topics,
    whatever its completed flag. *)
Definition today (topics : list Topic) (now : string) : list RevisionRecord :=
  List.filter (isToday now) (allRecords topics).

(** Modelled from the spec: [upcoming], every checkpoint dated strictly
    after [now], in ascending order. *)
Definition upcoming (topics : list Topic) (now : string) : list RevisionRecord :=
  JS.sort upcomingOrder (List.filter (isUpcoming now) (allRecords topics)).

(** Modelled from the spec: [past], the past-due and other checkpoints. *)
Definition past (topics : list Topic) (now : string) : list RevisionRecord :=
  List.filter (fun r => negb (isToday now r) && negb (isUpcoming now r))
              (allRecords topics).

End Store.

(** ** Home screen (frontend/app/index.tsx) *)

Module Home.
Import Model DateFns World.

Record State := mkState {
  todayRevisions : list Revision;
  upcomingRevisions : list Revision;
  allRevisions : list Revision;
  refreshing : bool;
  loading : bool;
  selectedDate : string;
  selectedDateRevisions : list Revision
}.

(** The [useState] initial values; [now] is the clock at mount. *)
Definition init (now : Date) : State :=
  {| todayRevisions := [];
     upcomingRevisions := [];
     allRevisions := [];
     refreshing := false;
     loading := true;
     selectedDate := format_yyyy_MM_dd now;
     selectedDateRevisions := [] |}.

(** [list.filter(r => r.revision_date === date)] *)
Definition forDate (records : list Revision) (date : string) : list Revision :=
  List.filter (fun r => String.eqb (r_revision_date r) date) records.

Section Handlers.
Variable API_URL : string.

Definition fetchRevisionsRequests : list Effect :=
  [Fetch "GET" (API_URL +:+ "/api/revisions/today") None;
   Fetch "GET" (API_URL +:+ "/api/revisions/upcoming") None].

Definition okData (res : Listing (list Revision)) : list Revision :=
  match res with
  | Listed data => data
  | _ => []
  end.

Definition setTodayRevisions (st : State) (data : list Revision) : State :=
  {| todayRevisions := data;
     upcomingRevisions := upcomingRevisions st;
     allRevisions := allRevisions st;
     refreshing := refreshing st;
     loading := loading st;
     selectedDate := selectedDate st;
     selectedDateRevisions := selectedDateRevisions st |}.

Definition setUpcomingRevisions (st : State) (data : list Revision) : State :=
  {| todayRevisions := todayRevisions st;
     upcomingRevisions := data;
     allRevisions := allRevisions st;
     refreshing := refreshing st;
     loading := loading st;
     selectedDate := selectedDate st;
     selectedDateRevisions := selectedDateRevisions st |}.

Definition setLoading (st : State) (b : bool) : State :=
  {| todayRevisions := todayRevisions st;
     upcomingRevisions := upcomingRevisions st;
     allRevisions := allRevisions st;
     refreshing := refreshing st;
     loading := b;
     selectedDate := selectedDate st;
     selectedDateRevisions := selectedDateRevisions st |}.

(** The [catch] and [finally] of [fetchRevisions], reached with the state
    updates made so far. *)
Definition fetchRevisionsFailed (st : State) : State * list Effect :=
  (setLoading st false,
   fetchRevisionsRequests ++ [ConsoleError "Error fetching revisions:"]).

(** [fetchRevisions], run to completion with the outcomes of the two
    requests.  [Promise.all] rejects when either [fetch] does; after that the
    two bodies are read in turn, and a list that was read is stored before
    the next body is read. *)
Definition fetchRevisions (st : State) (now : Date)
    (todayRes upcomingRes : Listing (list Revision)) : State * list Effect :=
  match todayRes, upcomingRes with
  | Unreachable, _ | _, Unreachable => fetchRevisionsFailed st
  | Unreadable, _ => fetchRevisionsFailed st
  | _, _ =>
      let todayData := okData todayRes in
      let st1 := match todayRes with
                 | Listed data => setTodayRevisions st data
                 | _ => st
                 end in
      match upcomingRes with
      | Unreadable => fetchRevisionsFailed st1
      | _ =>
          let upcomingData := okData upcomingRes in
          let st2 := match upcomingRes with
                     | Listed data => setUpcomingRevisions st1 data
                     | _ => st1
                     end in
          let combined := todayData ++ upcomingData in
          let todayStr := format_yyyy_MM_dd now in
          ({| todayRevisions := todayRevisions st2;
              upcomingRevisions := upcomingRevisions st2;
              allRevisions := combined;
              refreshing := refreshing st2;
              loading := false;
              selectedDate := selectedDate st2;
              selectedDateRevisions := forDate combined todayStr |},
           fetchRevisionsRequests)
      end
  end.

(** [markAsCompleted]; on success the un-awaited [fetchRevisions()] issues
    its two requests, and completes as a later [fetchRevisions] step. *)
Definition markAsCompleted (st : State) (topicId : string) (dayNumber : Z)
    (response : Response unit) : State * list Effect :=
  let request :=
    Fetch "POST" (API_URL +:+ "/api/topics/complete-revision")
          (Some [("topic_id", JS.JStr topicId); ("day_number", JS.JNum dayNumber)]) in
  match response with
  | Ok _ =>
      (st, [request; Alert "Success" "Revision marked as completed!"]
           ++ fetchRevisionsRequests)
  | Failed _ =>
      (st, [request; Alert "Error" "Failed to mark revision as completed"])
  | Threw =>
      (st, [request; ConsoleError "Error marking revision as completed:";
            Alert "Error" "Failed to mark revision as completed"])
  end.
End Handlers.

(** [onDayPress(day)] with [day.dateString]. *)
Definition onDayPress (st : State) (dateString : string) : State :=
  {| todayRevisions := todayRevisions st;
     upcomingRevisions := upcomingRevisions st;
     allRevisions := allRevisions st;
     refreshing := refreshing st;
     loading := loading st;
     selectedDate := dateString;
     selectedDateRevisions := forDate (allRevisions st) dateString |}.

(** *** The calendar markers *)

Record ContainerStyle := mkContainerStyle {
  borderWidth : Z;
  borderColor : string
}.

(** A marker object; an absent property is [None]. *)
Record Marker := mkMarker {
  marked : option bool;
  dotColor : option string;
  selected : option bool;
  selectedColor : option string;
  customStyles : option ContainerStyle
}.

(** [dateCounts], built by the [forEach] over the revisions. *)
Definition dateCounts (revisions : list Revision) : gmap string Z :=
  fold_left
    (fun counts revision =>
       let dateStr := r_revision_date revision in
       <[dateStr := JS.orZero (counts !! dateStr) + 1]> counts)
    revisions ∅.

(** The marker created for a date that has revisions. *)
Definition revisionMarker (todayStr selectedDate dateStr : string) : Marker :=
  let isSelected := String.eqb dateStr selectedDate in
  {| marked := Some true;
     dotColor := Some (if String.eqb dateStr todayStr then "#4ade80" else "#3b82f6");
     selected := if isSelected then Some true else None;
     selectedColor := if isSelected then Some "#3b82f6" else None;
     customStyles := None |}.

Definition select (m : Marker) : Marker :=
  {| marked := marked m;
     dotColor := dotColor m;
     selected := Some true;
     selectedColor := Some "#3b82f6";
     customStyles := customStyles m |}.

Definition styleToday (m : Marker) : Marker :=
  {| marked := marked m;
     dotColor := dotColor m;
     selected := selected m;
     selectedColor := selectedColor m;
     customStyles := Some {| borderWidth := 2; borderColor := "#4ade80" |} |}.

(** The body of the [markedDates] memo, with [todayStr] already formatted. *)
Definition buildMarks (revisions : list Revision) (selectedDate todayStr : string)
    : gmap string Marker :=
  let marks0 : gmap string Marker :=
    map_imap (fun dateStr _ => Some (revisionMarker todayStr selectedDate dateStr))
             (dateCounts revisions) in
  let marks1 :=
    match marks0 !! selectedDate with
    | None =>
        <[selectedDate := {| marked := None; dotColor := None;
                             selected := Some true;
                             selectedColor := Some "#3b82f6";
                             customStyles := None |}]> marks0
    | Some m => <[selectedDate := select m]> marks0
    end in
  let marks2 :=
    match marks1 !! todayStr with
    | None =>
        <[todayStr := {| marked := Some false; dotColor := None;
                         selected := None; selectedColor := None;
                         customStyles := None |}]> marks1
    | Some _ => marks1
    end in
  alter styleToday todayStr marks2.

(** [markedDates], recomputed from the state; [now] is the clock. *)
Definition markedDates (st : State) (now : Date) : gmap string Marker :=
  buildMarks (allRevisions st) (selectedDate st) (format_yyyy_MM_dd now).

(** *** Labels, colours and the wiring of the handlers *)

(** [getDayLabel] *)
Definition getDayLabel (dayNumber : Z) : string :=
  if dayNumber =? 2 then "Day 2"
  else if dayNumber =? 7 then "Day 7"
  else if dayNumber =? 14 then "Day 14"
  else "Day " +:+ JS.numberToString dayNumber.

(** [getDayColor] *)
Definition getDayColor (dayNumber : Z) : string :=
  if dayNumber =? 2 then "#f59e0b"
  else if dayNumber =? 7 then "#3b82f6"
  else if dayNumber =? 14 then "#8b5cf6"
  else "#6b7280".

Definition setRefreshing (st : State) (b : bool) : State :=
  {| todayRevisions := todayRevisions st;
     upcomingRevisions := upcomingRevisions st;
     allRevisions := allRevisions st;
     refreshing := b;
     loading := loading st;
     selectedDate := selectedDate st;
     selectedDateRevisions := selectedDateRevisions st |}.

(** What happens to the screen: it gains focus (or a completion refetches),
    the user pulls to refresh, presses a day, or completes a revision. *)
Inductive Event :=
| Focus (now : Date) (todayRes upcomingRes : Listing (list Revision))
| Refresh (now : Date) (todayRes upcomingRes : Listing (list Revision))
| DayPress (dateString : string)
| Complete (topicId : string) (dayNumber : Z) (response : Response unit).

Section Events.
Variable API_URL : string.

(** [onRefresh]: the refreshing flag is raised around [fetchRevisions]. *)
Definition onRefresh (st : State) (now : Date)
    (todayRes upcomingRes : Listing (list Revision)) : State * list Effect :=
  let '(fetched, effects) :=
    fetchRevisions API_URL (setRefreshing st true) now todayRes upcomingRes in
  (setRefreshing fetched false, effects).

Definition step (st : State) (ev : Event) : State :=
  match ev with
  | Focus now todayRes upcomingRes =>
      fst (fetchRevisions API_URL st now todayRes upcomingRes)
  | Refresh now todayRes upcomingRes =>
      fst (onRefresh st now todayRes upcomingRes)
  | DayPress dateString => onDayPress st dateString
  | Complete topicId dayNumber response =>
      fst (markAsCompleted API_URL st topicId dayNumber response)
  end.

(** The state after a sequence of events, from the screen's mount at
    [mounted]. *)
Definition run (mounted : Date) (events : list Event) : State :=
  fold_left step events (init mounted).
End Events.

End Home.

(** ** Add-topic screen (frontend/app/add-topic.tsx) *)

Module AddTopic.
Import Model DateFns World.

Record State := mkState {
  subjects : list Subject;
  selectedSubjectId : string;
  topicName : string;
  notes : string;
  showSubjectPicker : bool;
  loading : bool
}.

Definition setLoading (st : State) (b : bool) : State :=
  {| subjects := subjects st;
     selectedSubjectId := selectedSubjectId st;
     topicName := topicName st;
     notes := notes st;
     showSubjectPicker := showSubjectPicker st;
     loading := b |}.

Definition revisionDays : list Z := [2; 7; 14].

(** The trigger of the reminder of a revision day: 9 AM on that day. *)
Definition revisionDate (now : Date) (day : Z) : Date :=
  setHours (addDays now day) 9 0 0 0.

Definition notification (now : Date) (topicName subjectName : string) (day : Z)
    : NotificationRequest :=
  {| n_title := "Time to revise: " +:+ topicName;
     n_body := "Day " +:+ JS.numberToString day +:+ " revision for " +:+ subjectName;
     n_data_topicName := topicName;
     n_data_subjectName := subjectName;
     n_data_day := day;
     n_trigger_date := revisionDate now day |}.

(** The [for (const day of revisionDays)] loop of [scheduleNotifications].
    [accepts] is the outcome of the awaited [scheduleNotificationAsync] on a
    request: when the call rejects, the loop ends there.  The result is the
    list of the calls made, with [true] when the loop ran to its end. *)
Fixpoint scheduleLoop (accepts : NotificationRequest -> bool) (now : Date)
    (topicName subjectName : string) (days : list Z) : list Effect * bool :=
  match days with
  | [] => ([], true)
  | day :: rest =>
      if after (revisionDate now day) now
      then
        let request := notification now topicName subjectName day in
        if accepts request
        then
          let '(calls, completed) :=
            scheduleLoop accepts now topicName subjectName rest in
          (ScheduleNotification request :: calls, completed)
        else ([ScheduleNotification request], false)
      else scheduleLoop accepts now topicName subjectName rest
  end.

(** [scheduleNotifications]; [now] is the clock at the call. *)
Definition scheduleNotifications (accepts : NotificationRequest -> bool)
    (os : OS) (now : Date) (topicName subjectName : string) : list Effect * bool :=
  if OS_eqb os web then ([], true)
  else scheduleLoop accepts now topicName subjectName revisionDays.

Section Handlers.
Variable API_URL : string.

(** [addTopic]; [response] answers the POST, [now] is the clock when the
    notifications are scheduled and [accepts] the outcome of each scheduling
    call.  A rejected scheduling call is caught like a failed request. *)
Definition addTopic (st : State) (os : OS) (now : Date)
    (accepts : NotificationRequest -> bool)
    (response : Response unit) : State * list Effect :=
  if negb (JS.truthy (selectedSubjectId st)) then
    (st, [Alert "Error" "Please select a subject"])
  else if negb (JS.truthy (JS.trim (topicName st))) then
    (st, [Alert "Error" "Please enter a topic name"])
  else
    let request :=
      Fetch "POST" (API_URL +:+ "/api/topics")
            (Some [("subject_id", JS.JStr (selectedSubjectId st));
                   ("name", JS.JStr (JS.trim (topicName st)));
                   ("notes", JS.JStr (JS.trim (notes st)))]) in
    let failed := [ConsoleError "Error adding topic:";
                   Alert "Error" "Failed to add topic"] in
    let effects :=
      match response with
      | Ok _ =>
          let '(scheduled, completed) :=
            match List.find (fun s => String.eqb (s_id s) (selectedSubjectId st))
                            (subjects st) with
            | Some selectedSubject =>
                scheduleNotifications accepts os now (JS.trim (topicName st))
                                      (s_name selectedSubject)
            | None => ([], true)
            end in
          if completed
          then scheduled
               ++ [AlertThenBack "Success" "Topic added successfully with revision reminders!"]
          else scheduled ++ failed
      | Failed detail => [Alert "Error" (JS.orString detail "Failed to add topic")]
      | Threw => failed
      end in
    (setLoading st false, request :: effects).
End Handlers.

(** The Revision Schedule preview: badge label and shown date of each row;
    [today] is the clock at render. *)
Definition schedulePreview (today : Date) : list (string * string) :=
  [("Day 2", format_dd_MMM_yyyy (addDays today 2));
   ("Day 7", format_dd_MMM_yyyy (addDays today 7));
   ("Day 14", format_dd_MMM_yyyy (addDays today 14))].

(** *** Loading the subjects and filling the form *)

(** [subjectId] of the route is present and not empty. *)
Definition given (subjectId : option string) : bool :=
  match subjectId with
  | Some s => JS.truthy s
  | None => false
  end.

(** The [useState] initial values; [subjectId] is the route parameter. *)
Definition init (subjectId : option string) : State :=
  {| subjects := [];
     selectedSubjectId := JS.orString subjectId EmptyString;
     topicName := EmptyString;
     notes := EmptyString;
     showSubjectPicker := false;
     loading := false |}.

(** [onChangeText={setTopicName}] *)
Definition setTopicName (st : State) (text : string) : State :=
  {| subjects := subjects st;
     selectedSubjectId := selectedSubjectId st;
     topicName := text;
     notes := notes st;
     showSubjectPicker := showSubjectPicker st;
     loading := loading st |}.

(** The press on a subject of the picker. *)
Definition pickSubject (st : State) (subject : Subject) : State :=
  {| subjects := subjects st;
     selectedSubjectId := s_id subject;
     topicName := topicName st;
     notes := notes st;
     showSubjectPicker := false;
     loading := loading st |}.

Section Loading.
Variable API_URL : string.

(** [fetchSubjects]; without a route parameter the first loaded subject
    becomes the selected one. *)
Definition fetchSubjects (st : State) (subjectId : option string)
    (response : Response (list Subject)) : State * list Effect :=
  let request := Fetch "GET" (API_URL +:+ "/api/subjects") None in
  match response with
  | Ok data =>
      ({| subjects := data;
          selectedSubjectId :=
            match data with
            | first :: _ =>
                if negb (given subjectId) then s_id first
                else selectedSubjectId st
            | [] => selectedSubjectId st
            end;
          topicName := topicName st;
          notes := notes st;
          showSubjectPicker := showSubjectPicker st;
          loading := loading st |},
       [request])
  | Failed _ => (st, [request])
  | Threw => (st, [request; ConsoleError "Error fetching subjects:"])
  end.
End Loading.

End AddTopic.

(** ** Edit-topic screen (frontend/app/edit-topic/[id].tsx) *)

Module EditTopic.
Import Model World.

Record State := mkState {
  topic : option Topic;
  topicName : string;
  notes : string;
  loading : bool;
  saving : bool
}.

Definition setSaving (st : State) (b : bool) : State :=
  {| topic := topic st;
     topicName := topicName st;
     notes := notes st;
     loading := loading st;
     saving := b |}.

Section Handlers.
Variable API_URL : string.
(** The [id] route parameter. *)
Variable id : string.

Definition updateTopic (st : State) (response : Response unit)
    : State * list Effect :=
  if negb (JS.truthy (JS.trim (topicName st))) then
    (st, [Alert "Error" "Please enter a topic name"])
  else
    let request :=
      Fetch "PUT" (API_URL +:+ "/api/topics/" +:+ id)
            (Some [("name", JS.JStr (JS.trim (topicName st)));
                   ("notes", JS.JStr (JS.trim (notes st)))]) in
    let effects :=
      match response with
      | Ok _ => [AlertThenBack "Success" "Topic updated successfully!"]
      | Failed detail =>
          [Alert "Error" (JS.orString detail "Failed to update topic")]
      | Threw => [ConsoleError "Error updating topic:";
                  Alert "Error" "Failed to update topic"]
      end in
    (setSaving st false, request :: effects).
End Handlers.

(** [getColorForDay] *)
Definition getColorForDay (day : Z) : string :=
  if day =? 2 then "#f59e0b"
  else if day =? 7 then "#3b82f6"
  else if day =? 14 then "#8b5cf6"
  else "#6b7280".

End EditTopic.

(** ** Subject detail screen (the topic list of a subject) *)

Module SubjectDetail.
Import Model.

Section NextRevision.
(** [new Date(s).getTime()]: the time value of a date string, [None] for
    NaN (an invalid date). *)
Variable Date_getTime : string -> option Z.

(** [(a, b) => new Date(a.date).getTime() - new Date(b.date).getTime()] *)
Definition byDate (a b : RevisionDate) : option Z :=
  match Date_getTime (rd_date a), Date_getTime (rd_date b) with
  | Some ta, Some tb => Some (ta - tb)
  | _, _ => None
  end.

(** [getNextRevision]; [None] is [null]. *)
Definition getNextRevision (revisionDates : list RevisionDate)
    : option RevisionDate :=
  let incomplete := List.filter (fun rd => negb (rd_completed rd)) revisionDates in
  if (length incomplete =? 0)%nat then None
  else head (JS.sort byDate incomplete).
End NextRevision.

Definition completedCount (revisionDates : list RevisionDate) : nat :=
  length (List.filter (fun rd => rd_completed rd) revisionDates).

Definition getRevisionStatusColor (revisionDates : list RevisionDate) : string :=
  let completed := completedCount revisionDates in
  if (completed =? 3)%nat then "#4ade80"
  else if (1 <=? completed)%nat then "#f59e0b"
  else "#3b82f6".

(** The status a border colour stands for. *)
Inductive Status := NONE | PARTIAL | COMPLETE.

Definition statusColor (s : Status) : string :=
  match s with
  | COMPLETE => "#4ade80"
  | PARTIAL => "#f59e0b"
  | NONE => "#3b82f6"
  end.

(** The "All revisions completed!" badge of a topic card is shown. *)
Definition showsCompletedBadge (t : Topic) : bool :=
  (completedCount (t_revision_dates t) =? 3)%nat.

(** [(a, b) => a.day_number - b.day_number] *)
Definition byDayNumber (a b : RevisionDate) : option Z :=
  Some (rd_day_number a - rd_day_number b).

(** [topic.revision_dates.sort(...)] of a topic card: the array is sorted in
    place, so this is also the topic's checkpoint list after the render. *)
Definition displayOrder (revisionDates : list RevisionDate) : list RevisionDate :=
  JS.sort byDayNumber revisionDates.

End SubjectDetail.

(** ** Subjects screen *)

Module Subjects.
Import Model World.

Record State := mkState {
  subjects : list Subject;
  refreshing : bool;
  modalVisible : bool;
  editModalVisible : bool;
  newSubjectName : string;
  editingSubject : option Subject;
  editSubjectName : string;
  topicCounts : gmap string Z
}.

Section Handlers.
Variable API_URL : string.

(** The request that the un-awaited [fetchSubjects()] issues. *)
Definition fetchSubjectsRequest : Effect :=
  Fetch "GET" (API_URL +:+ "/api/subjects") None.

Definition addSubject (st : State) (response : Response unit)
    : State * list Effect :=
  if negb (JS.truthy (JS.trim (newSubjectName st))) then
    (st, [Alert "Error" "Please enter a subject name"])
  else
    let request :=
      Fetch "POST" (API_URL +:+ "/api/subjects")
            (Some [("name", JS.JStr (JS.trim (newSubjectName st)))]) in
    match response with
    | Ok _ =>
        ({| subjects := subjects st;
            refreshing := refreshing st;
            modalVisible := false;
            editModalVisible := editModalVisible st;
            newSubjectName := EmptyString;
            editingSubject := editingSubject st;
            editSubjectName := editSubjectName st;
            topicCounts := topicCounts st |},
         [request; fetchSubjectsRequest])
    | Failed _ => (st, [request; Alert "Error" "Failed to add subject"])
    | Threw => (st, [request; ConsoleError "Error adding subject:";
                     Alert "Error" "Failed to add subject"])
    end.

Definition updateSubject (st : State) (response : Response unit)
    : State * list Effect :=
  match editingSubject st with
  | Some editing =>
      if negb (JS.truthy (JS.trim (editSubjectName st))) then
        (st, [Alert "Error" "Please enter a subject name"])
      else
        let request :=
          Fetch "PUT" (API_URL +:+ "/api/subjects/" +:+ s_id editing)
                (Some [("name", JS.JStr (JS.trim (editSubjectName st)))]) in
        match response with
        | Ok _ =>
            ({| subjects := subjects st;
                refreshing := refreshing st;
                modalVisible := modalVisible st;
                editModalVisible := false;
                newSubjectName := newSubjectName st;
                editingSubject := None;
                editSubjectName := EmptyString;
                topicCounts := topicCounts st |},
             [request; fetchSubjectsRequest])
        | Failed _ => (st, [request; Alert "Error" "Failed to update subject"])
        | Threw => (st, [request; ConsoleError "Error updating subject:";
                         Alert "Error" "Failed to update subject"])
        end
  | None => (st, [Alert "Error" "Please enter a subject name"])
  end.
End Handlers.

(** *** Loading the subjects and their topic counts *)

(** The [useState] initial values. *)
Definition init : State :=
  {| subjects := [];
     refreshing := false;
     modalVisible := false;
     editModalVisible := false;
     newSubjectName := EmptyString;
     editingSubject := None;
     editSubjectName := EmptyString;
     topicCounts := ∅ |}.

(** [openEditModal] *)
Definition openEditModal (st : State) (subject : Subject) : State :=
  {| subjects := subjects st;
     refreshing := refreshing st;
     modalVisible := modalVisible st;
     editModalVisible := true;
     newSubjectName := newSubjectName st;
     editingSubject := Some subject;
     editSubjectName := s_name subject;
     topicCounts := topicCounts st |}.

(** [{topicCounts[subject.id] || 0} topics] on a subject card. *)
Definition shownTopicCount (st : State) (subject : Subject) : Z :=
  JS.orZero (topicCounts st !! s_id subject).

Section Loading.
Variable API_URL : string.

(** The [for (const subject of data)] loop of [fetchSubjects];
    [topicsRes i] answers the request of the [i]-th subject. *)
Fixpoint countTopics (topicsRes : nat -> Response (list Topic)) (i : nat)
    (data : list Subject) (counts : gmap string Z) : gmap string Z * list Effect :=
  match data with
  | [] => (counts, [])
  | subject :: rest =>
      let request :=
        Fetch "GET" (API_URL +:+ "/api/subjects/" +:+ s_id subject +:+ "/topics") None in
      let counts' : gmap string Z :=
        match topicsRes i with
        | Ok topics => <[s_id subject := Z.of_nat (length topics)]> counts
        | Failed _ => counts
        | Threw => <[s_id subject := 0]> counts
        end in
      let '(final, effects) := countTopics topicsRes (S i) rest counts' in
      (final, request :: effects)
  end.

(** [fetchSubjects], run to completion. *)
Definition fetchSubjects (st : State) (response : Response (list Subject))
    (topicsRes : nat -> Response (list Topic)) : State * list Effect :=
  let request := Fetch "GET" (API_URL +:+ "/api/subjects") None in
  match response with
  | Ok data =>
      let '(counts, effects) := countTopics topicsRes 0 data ∅ in
      ({| subjects := data;
          refreshing := refreshing st;
          modalVisible := modalVisible st;
          editModalVisible := editModalVisible st;
          newSubjectName := newSubjectName st;
          editingSubject := editingSubject st;
          editSubjectName := editSubjectName st;
          topicCounts := counts |},
       request :: effects)
  | Failed _ => (st, [request])
  | Threw => (st, [request; ConsoleError "Error fetching subjects:"])
  end.
End Loading.

End Subjects.

(** * Vocabulary of the properties and sample data *)

(** An operation was rejected locally: the state is the prior one and the
    only effect is an error alert, so no request went to the store. *)
Definition rejectedLocally {S : Type} (prior : S) (out : S * list World.Effect) : Prop :=
  fst out = prior /\
  (exists message, snd out = [World.Alert "Error" message]) /\
  forallb (fun e => negb (World.isNetworkCall e)) (snd out) = true.

Section SortOrder.
Context {A : Type} (cmp : A -> A -> option Z) (key : A -> Z).

(** The comparator is the difference of a numeric key on the elements of
    the array. *)
Definition keyed (l : list A) : Prop :=
  forall a b, In a l -> In b l -> cmp a b = Some (key a - key b).

Definition ascending : list A -> Prop :=
  StronglySorted (fun a b => key a <= key b).
End SortOrder.

(** A date has revisions. *)
Definition hasRevisions (revisions : list Model.Revision) (date : string) : bool :=
  existsb (fun r => String.eqb (Model.r_revision_date r) date) revisions.

Section Markers.
Import Home.

Definition selectedOnly : Marker :=
  {| marked := None; dotColor := None; selected := Some true;
     selectedColor := Some "#3b82f6"; customStyles := None |}.

Definition unmarked : Marker :=
  {| marked := Some false; dotColor := None; selected := None;
     selectedColor := None; customStyles := None |}.

(** The marker of every date, stage by stage: the revision stage, the
    selection stage and the today stage. *)
Definition markerAt (revisions : list Model.Revision) (selectedDate todayStr date : string)
    : option Marker :=
  let m0 := if hasRevisions revisions date
            then Some (revisionMarker todayStr selectedDate date) else None in
  let m1 := if decide (selectedDate = date)
            then Some (from_option select selectedOnly m0) else m0 in
  if decide (todayStr = date)
  then Some (styleToday (default unmarked m1)) else m1.
End Markers.

(** The calls made out of a list of requests handed over in turn, when a
    rejected call ends the hand-over: the requests up to and including the
    first one that is not accepted. *)
Fixpoint attempted {A : Type} (accepts : A -> bool) (requests : list A) : list A :=
  match requests with
  | [] => []
  | request :: rest =>
      if accepts request then request :: attempted accepts rest else [request]
  end.

(** A scheduling capability that accepts every request. *)
Definition alwaysAccepts (request : World.NotificationRequest) : bool := true.

(** A form holding three blanks as the topic name, with a subject selected. *)
Definition blankTopicForm : AddTopic.State :=
  {| AddTopic.subjects := [Model.mkSubject "s1" "Surgery" "2024-01-01"];
     AddTopic.selectedSubjectId := "s1";
     AddTopic.topicName := "   ";
     AddTopic.notes := "notes";
     AddTopic.showSubjectPicker := false;
     AddTopic.loading := false |}.

Definition sampleCheckpoints : list Model.RevisionDate :=
  [Model.mkRevisionDate "2024-01-15" 14 false;
   Model.mkRevisionDate "2024-01-03" 2 true;
   Model.mkRevisionDate "2024-01-08" 7 false].

Definition sampleTopic : Model.Topic :=
  {| Model.t_id := "t1";
     Model.t_subject_id := "s1";
     Model.t_subject_name := "Surgery";
     Model.t_name := "Bowel Obstruction";
     Model.t_notes := "notes";
     Model.t_created_at := "2024-01-01";
     Model.t_revision_dates := sampleCheckpoints |}.

(** A filled form: a subject is selected and the topic has a name. *)
Definition readyForm (subjects : list Model.Subject) : AddTopic.State :=
  {| AddTopic.subjects := subjects;
     AddTopic.selectedSubjectId := "s1";
     AddTopic.topicName := " Bowel Obstruction ";
     AddTopic.notes := "notes";
     AddTopic.showSubjectPicker := false;
     AddTopic.loading := false |}.

Definition surgery : Model.Subject := Model.mkSubject "s1" "Surgery" "2024-01-01".

(** 2024-01-01, 10:00. *)
Definition newYearMorning : DateFns.Date :=
  DateFns.mkDate (DateFns.getTime (DateFns.ofCivil 2024 1 1) + 36000000).

Definition sampleRevision (topicId topic subject date : string) (day : Z) : Model.Revision :=
  {| Model.r_id := topicId;
     Model.r_topic_name := topic;
     Model.r_subject_name := subject;
     Model.r_subject_id := "s-" +:+ subject;
     Model.r_notes := EmptyString;
     Model.r_day_number := day;
     Model.r_revision_date := date;
     Model.r_created_at := None |}.

(** Two topics with a checkpoint on 2024-01-03, among other revisions. *)
Definition sampleToday : list Model.Revision :=
  [sampleRevision "t0" "Appendicitis" "Surgery" "2024-01-02" 7].

Definition sampleUpcoming : list Model.Revision :=
  [sampleRevision "t1" "Bowel Obstruction" "Surgery" "2024-01-03" 2;
   sampleRevision "t1" "Bowel Obstruction" "Surgery" "2024-01-08" 7;
   sampleRevision "t2" "Heart Failure" "Medicine" "2024-01-03" 7;
   sampleRevision "t2" "Heart Failure" "Medicine" "2024-01-10" 14].

(** The topic of the scenario: created on 2024-01-01, nothing completed. *)
Definition freshTopic : Model.Topic :=
  {| Model.t_id := "t1";
     Model.t_subject_id := "s1";
     Model.t_subject_name := "Surgery";
     Model.t_name := "Bowel Obstruction";
     Model.t_notes := "notes";
     Model.t_created_at := "2024-01-01";
     Model.t_revision_dates := Store.generate (DateFns.ofCivil 2024 1 1) |}.

(** A second topic, created on 2023-12-27 with its first checkpoint done. *)
Definition olderTopic : Model.Topic :=
  {| Model.t_id := "t2";
     Model.t_subject_id := "s2";
     Model.t_subject_name := "Medicine";
     Model.t_name := "Heart Failure";
     Model.t_notes := EmptyString;
     Model.t_created_at := "2023-12-27";
     Model.t_revision_dates :=
       map (Store.completeAt 2) (Store.generate (DateFns.ofCivil 2023 12 27)) |}.

(** * Properties *)

(** ** The embedding on concrete inputs *)

Example format_2024_01_01 :
  DateFns.format_yyyy_MM_dd newYearMorning = "2024-01-01".
Proof. reflexivity. Qed.

Example format_leap_day :
  DateFns.format_yyyy_MM_dd (DateFns.addDays (DateFns.ofCivil 2024 2 27) 2)
  = "2024-02-29".
Proof. reflexivity. Qed.

Example schedulePreview_2024_01_01 :
  AddTopic.schedulePreview newYearMorning
  = [("Day 2", "03 Jan 2024"); ("Day 7", "08 Jan 2024"); ("Day 14", "15 Jan 2024")].
Proof. reflexivity. Qed.

Example revisionDate_nine_am :
  AddTopic.revisionDate newYearMorning 2
  = DateFns.mkDate (DateFns.getTime (DateFns.ofCivil 2024 1 3) + 9 * 3600000).
Proof. reflexivity. Qed.

Example parseDateOnly_valid :
  DateFns.parseDateOnly "2024-01-03"
  = Some (DateFns.getTime (DateFns.ofCivil 2024 1 3)).
Proof. reflexivity. Qed.

Example trim_inner_blanks_kept : JS.trim "  ab c  " = "ab c".
Proof. reflexivity. Qed.

Example sort_is_stable :
  JS.sort (fun a b : Z * string => Some (fst a - fst b))
          [(2, "b"); (1, "x"); (2, "a"); (1, "y")]
  = [(1, "x"); (1, "y"); (2, "b"); (2, "a")].
Proof. reflexivity. Qed.

Example dateCounts_sample :
  Home.dateCounts (sampleToday ++ sampleUpcoming) !! "2024-01-03" = Some 2.
Proof. vm_compute. reflexivity. Qed.

(** ** Strings *)

Section TrimFacts.
Import JS.

Lemma chars_rev_app (s1 s2 : string) :
  list_ascii_of_string (String.rev_app s1 s2)
  = rev (list_ascii_of_string s1) ++ list_ascii_of_string s2.
Proof.
  revert s2. induction s1 as [|c s1 IH]; intros s2; simpl; [done|].
  rewrite IH. simpl. by rewrite <- app_assoc.
Qed.

Lemma chars_rev (s : string) :
  list_ascii_of_string (String.rev s) = rev (list_ascii_of_string s).
Proof. unfold String.rev. rewrite chars_rev_app. simpl. apply app_nil_r. Qed.

Lemma whitespaceOnly_rev (s : string) :
  whitespaceOnly (String.rev s) = whitespaceOnly s.
Proof.
  unfold whitespaceOnly. rewrite chars_rev.
  induction (list_ascii_of_string s) as [|c l IH]; simpl; [done|].
  rewrite forallb_app, IH. simpl. destruct (isWhiteSpace c), (forallb isWhiteSpace l); done.
Qed.

Lemma trimStart_empty_iff (s : string) :
  trimStart s = EmptyString <-> whitespaceOnly s = true.
Proof.
  unfold whitespaceOnly.
  induction s as [|c s IH]; simpl; [done|].
  destruct (isWhiteSpace c); simpl; [exact IH|]. split; discriminate.
Qed.

(** What [trimStart] leaves is empty or starts with a non-blank. *)
Lemma trimStart_whitespaceOnly (s : string) :
  whitespaceOnly (trimStart s) = true -> trimStart s = EmptyString.
Proof.
  unfold whitespaceOnly.
  induction s as [|c s IH]; simpl; [done|].
  destruct (isWhiteSpace c) eqn:Hc; [exact IH|].
  simpl. rewrite Hc. discriminate.
Qed.

Lemma rev_empty_iff (s : string) :
  String.rev s = EmptyString <-> s = EmptyString.
Proof.
  split; [|by intros ->].
  intros H. apply (f_equal list_ascii_of_string) in H.
  rewrite chars_rev in H. simpl in H.
  destruct s as [|c s]; [done|]. simpl in H.
  destruct (rev (list_ascii_of_string s)); discriminate.
Qed.

(** [trim] leaves nothing exactly of the strings made of blanks only. *)
Lemma trim_falsy_iff (s : string) :
  truthy (trim s) = false <-> whitespaceOnly s = true.
Proof.
  assert (Hfalsy : forall x, truthy x = false <-> x = EmptyString).
  { intros [|? ?]; simpl; split; done. }
  rewrite Hfalsy. unfold trim, trimEnd.
  rewrite rev_empty_iff, trimStart_empty_iff, whitespaceOnly_rev.
  split.
  - intros H. apply trimStart_empty_iff.
    by apply trimStart_whitespaceOnly.
  - intros H. apply trimStart_empty_iff in H. by rewrite H.
Qed.
End TrimFacts.

(** ** Validation of names *)

Lemma alert_rejectedLocally {S : Type} (st : S) (message : string) :
  rejectedLocally st (st, [World.Alert "Error" message]).
Proof. repeat split. by exists message. Qed.

(** C8: a subject or topic create/update operation invoked with an empty or
    whitespace-only name is rejected locally with an error alert, before any
    request to the store, and leaves the prior state unchanged.  This holds
    for [addSubject], [updateSubject], [addTopic] and [updateTopic], whatever
    the store would have answered. *)
Theorem blank_name_rejected (API_URL id : string) :
  (forall st response,
      JS.whitespaceOnly (Subjects.newSubjectName st) = true ->
      rejectedLocally st (Subjects.addSubject API_URL st response)) /\
  (forall st response,
      JS.whitespaceOnly (Subjects.editSubjectName st) = true ->
      rejectedLocally st (Subjects.updateSubject API_URL st response)) /\
  (forall st os now accepts response,
      JS.whitespaceOnly (AddTopic.topicName st) = true ->
      rejectedLocally st (AddTopic.addTopic API_URL st os now accepts response)) /\
  (forall st response,
      JS.whitespaceOnly (EditTopic.topicName st) = true ->
      rejectedLocally st (EditTopic.updateTopic API_URL id st response)).
Proof.
  split; [|split; [|split]].
  - intros st response Hblank%trim_falsy_iff.
    unfold Subjects.addSubject. rewrite Hblank. apply alert_rejectedLocally.
  - intros st response Hblank%trim_falsy_iff.
    unfold Subjects.updateSubject. rewrite Hblank.
    destruct (Subjects.editingSubject st); apply alert_rejectedLocally.
  - intros st os now accepts response Hblank%trim_falsy_iff.
    unfold AddTopic.addTopic. rewrite Hblank.
    destruct (JS.truthy (AddTopic.selectedSubjectId st)); apply alert_rejectedLocally.
  - intros st response Hblank%trim_falsy_iff.
    unfold EditTopic.updateTopic. rewrite Hblank. apply alert_rejectedLocally.
Qed.

Lemma blank_name_rejected_witness :
  JS.whitespaceOnly (AddTopic.topicName blankTopicForm) = true /\
  rejectedLocally blankTopicForm
    (AddTopic.addTopic "http://store" blankTopicForm World.ios
       (DateFns.ofCivil 2024 1 1) alwaysAccepts (World.Ok tt)).
Proof.
  split; [reflexivity|].
  apply (blank_name_rejected "http://store" "t1"). reflexivity.
Defined.


(** ** The stable sort *)

Section SortFacts.
Context {A : Type} (cmp : A -> A -> option Z).

Lemma insert_sorted_perm (x : A) (l : list A) :
  Permutation (JS.insert_sorted cmp x l) (x :: l).
Proof.
  induction l as [|y l IH]; simpl; [done|].
  destruct (JS.swaps cmp x y); [|done].
  rewrite IH. apply perm_swap.
Qed.

(** Sorting loses and duplicates nothing. *)
Lemma sort_perm (l : list A) : Permutation (JS.sort cmp l) l.
Proof.
  induction l as [|x l IH]; simpl; [done|].
  rewrite insert_sorted_perm. by constructor.
Qed.

Lemma sort_In (l : list A) (x : A) : In x (JS.sort cmp l) <-> In x l.
Proof.
  split; apply Permutation_in; [|symmetry]; apply sort_perm.
Qed.

(** When the comparator is the difference of a numeric key, the sorted
    array is in ascending key order. *)
Variable key : A -> Z.

Lemma insert_sorted_ascending (x : A) (l : list A) :
  keyed cmp key (x :: l) -> ascending key l -> ascending key (JS.insert_sorted cmp x l).
Proof.
  intros Hkey Hasc. induction Hasc as [|y l Hasc IH Hy]; simpl.
  - repeat constructor.
  - unfold JS.swaps. rewrite (Hkey x y) by (simpl; auto).
    destruct (0 <? key x - key y) eqn:Hlt.
    + apply Z.ltb_lt in Hlt. constructor.
      * apply IH. intros a b Ha Hb. apply Hkey; simpl in *; tauto.
      * apply List.Forall_forall. intros z Hz.
        apply (Permutation_in _ (insert_sorted_perm x l)) in Hz.
        destruct Hz as [<-|Hz]; [lia|].
        rewrite List.Forall_forall in Hy. by apply Hy.
    + apply Z.ltb_ge in Hlt. constructor; [by constructor|].
      constructor; [lia|].
      rewrite List.Forall_forall in Hy |- *. intros z Hz.
      specialize (Hy z Hz). lia.
Qed.

Lemma sort_ascending (l : list A) : keyed cmp key l -> ascending key (JS.sort cmp l).
Proof.
  induction l as [|x l IH]; intros Hkey; simpl; [constructor|].
  apply insert_sorted_ascending.
  - intros a b Ha Hb. apply Hkey.
    + destruct Ha as [<-|Ha]; [by left|]. right. by apply sort_In.
    + destruct Hb as [<-|Hb]; [by left|]. right. by apply sort_In.
  - apply IH. intros a b Ha Hb. apply Hkey; by right.
Qed.

(** The first element of the sorted array has the least key. *)
Lemma sort_head_least (l : list A) (first : A) :
  keyed cmp key l -> head (JS.sort cmp l) = Some first ->
  In first l /\ forall a, In a l -> key first <= key a.
Proof.
  intros Hkey Hhead. pose proof (sort_ascending l Hkey) as Hasc.
  destruct (JS.sort cmp l) as [|y rest] eqn:Hsort; [discriminate|].
  simpl in Hhead. injection Hhead as ->.
  split.
  - apply sort_In. rewrite Hsort. by left.
  - intros a Ha. apply sort_In in Ha. rewrite Hsort in Ha.
    inversion Hasc as [|? ? _ Hall]; subst.
    destruct Ha as [<-|Ha]; [lia|].
    rewrite List.Forall_forall in Hall. by apply Hall.
Qed.
End SortFacts.


(** ** Topic status and next revision *)

Section NextRevisionFacts.
Import Model SubjectDetail.
Variable Date_getTime : string -> option Z.

Lemma byDate_keyed (l : list RevisionDate) :
  (forall rd, In rd l -> is_Some (Date_getTime (rd_date rd))) ->
  keyed (byDate Date_getTime) (fun rd => default 0 (Date_getTime (rd_date rd))) l.
Proof.
  intros Hvalid a b Ha Hb. unfold byDate.
  destruct (Hvalid a Ha) as [ta ->], (Hvalid b Hb) as [tb ->]. done.
Qed.

Lemma incomplete_nil_iff (revisionDates : list RevisionDate) :
  List.filter (fun rd => negb (rd_completed rd)) revisionDates = []
  <-> forall rd, In rd revisionDates -> rd_completed rd = true.
Proof.
  induction revisionDates as [|rd l IH]; simpl; [by split|].
  destruct (rd_completed rd) eqn:Hrd; simpl.
  - rewrite IH. split; [|by auto].
    intros H x [<-|Hx]; auto.
  - split; [discriminate|]. intros H.
    specialize (H rd (or_introl eq_refl)). congruence.
Qed.

(** C10: [getNextRevision] returns null exactly when every checkpoint is
    completed; otherwise it returns an incomplete checkpoint of the list,
    and, the dates of the incomplete checkpoints being valid date strings,
    one whose date is not later than the date of any incomplete checkpoint. *)
Theorem getNextRevision_spec (revisionDates : list RevisionDate) :
  (getNextRevision Date_getTime revisionDates = None
   <-> forall rd, In rd revisionDates -> rd_completed rd = true) /\
  (forall next, getNextRevision Date_getTime revisionDates = Some next ->
     In next revisionDates /\ rd_completed next = false /\
     ((forall rd, In rd revisionDates -> rd_completed rd = false ->
                  is_Some (Date_getTime (rd_date rd))) ->
      forall rd, In rd revisionDates -> rd_completed rd = false ->
        exists tnext t, Date_getTime (rd_date next) = Some tnext /\
                        Date_getTime (rd_date rd) = Some t /\ tnext <= t)).
Proof.
  unfold getNextRevision.
  set (incomplete := List.filter (fun rd => negb (rd_completed rd)) revisionDates).
  assert (Hin : forall rd, In rd incomplete <->
                           In rd revisionDates /\ rd_completed rd = false).
  { intros rd. unfold incomplete. by rewrite filter_In, negb_true_iff. }
  split.
  - rewrite <- incomplete_nil_iff. fold incomplete.
    destruct incomplete as [|rd l] eqn:Hinc; simpl; [done|].
    split; [|discriminate]. intros Hhead.
    pose proof (sort_perm (byDate Date_getTime) (rd :: l)) as Hperm.
    simpl in Hperm.
    destruct (JS.insert_sorted _ rd _); [|discriminate].
    by apply Permutation_nil in Hperm.
  - intros next Hnext.
    destruct (length incomplete =? 0)%nat; [discriminate|].
    assert (Hfirst : In next incomplete).
    { apply (sort_In (byDate Date_getTime)).
      destruct (JS.sort _ incomplete); [discriminate|].
      injection Hnext as ->. by left. }
    apply Hin in Hfirst as [Hfirst Hopen].
    split; [done|]. split; [done|].
    intros Hvalid rd Hrd Hrdopen.
    assert (Hkeyed : keyed (byDate Date_getTime)
                       (fun rd => default 0 (Date_getTime (rd_date rd))) incomplete).
    { apply byDate_keyed. intros x [? ?]%Hin. by apply Hvalid. }
    destruct (sort_head_least _ _ incomplete next Hkeyed Hnext) as [_ Hleast].
    specialize (Hleast rd (proj2 (Hin rd) (conj Hrd Hrdopen))). simpl in Hleast.
    destruct (Hvalid next Hfirst Hopen) as [tnext Htnext].
    destruct (Hvalid rd Hrd Hrdopen) as [t Ht].
    rewrite Htnext, Ht in Hleast. simpl in Hleast. eauto.
Qed.
End NextRevisionFacts.

Lemma getNextRevision_spec_witness :
  SubjectDetail.getNextRevision DateFns.parseDateOnly sampleCheckpoints
  = Some (Model.mkRevisionDate "2024-01-08" 7 false) /\
  forall rd, In rd sampleCheckpoints -> Model.rd_completed rd = false ->
    exists tnext t, DateFns.parseDateOnly "2024-01-08" = Some tnext /\
                    DateFns.parseDateOnly (Model.rd_date rd) = Some t /\ tnext <= t.
Proof.
  assert (Hnext : SubjectDetail.getNextRevision DateFns.parseDateOnly sampleCheckpoints
                  = Some (Model.mkRevisionDate "2024-01-08" 7 false))
    by (vm_compute; reflexivity).
  split; [exact Hnext|].
  destruct (getNextRevision_spec DateFns.parseDateOnly sampleCheckpoints)
    as [_ Hsome].
  destruct (Hsome _ Hnext) as (_ & _ & Hleast).
  apply Hleast.
  intros rd Hrd _. simpl in Hrd.
  destruct Hrd as [<-|[<-|[<-|[]]]]; vm_compute; eauto.
Defined.

Section StatusFacts.
Import Model SubjectDetail.

Lemma completedCount_cons (rd : RevisionDate) (l : list RevisionDate) :
  completedCount (rd :: l)
  = ((if rd_completed rd then 1 else 0) + completedCount l)%nat.
Proof. unfold completedCount. simpl. by destruct (rd_completed rd). Qed.

Lemma completedCount_le (l : list RevisionDate) :
  (completedCount l <= length l)%nat.
Proof. apply filter_length_le. Qed.

Lemma completedCount_all (l : list RevisionDate) :
  completedCount l = length l <-> Forall (fun rd => rd_completed rd = true) l.
Proof.
  induction l as [|rd l IH]; [by split|].
  rewrite completedCount_cons, List.Forall_cons_iff, <- IH.
  pose proof (completedCount_le l).
  destruct (rd_completed rd); simpl; split; try lia; intros []; (lia || done).
Qed.

Lemma completedCount_none (l : list RevisionDate) :
  completedCount l = 0%nat <-> Forall (fun rd => rd_completed rd = false) l.
Proof.
  induction l as [|rd l IH]; [by split|].
  rewrite completedCount_cons, List.Forall_cons_iff, <- IH.
  destruct (rd_completed rd); simpl; split; try lia; intros []; (lia || done).
Qed.

(** C2: for a topic with its three checkpoints, the derived status (shown
    as the card's border colour) is COMPLETE if and only if all three
    checkpoints are completed, NONE if and only if none is, and PARTIAL in
    every other case; this covers the eight combinations of the flags.  The
    completed badge is shown exactly for COMPLETE. *)
Theorem status_trichotomy (t : Topic)
    (Hthree : length (t_revision_dates t) = 3%nat) :
  let status := getRevisionStatusColor (t_revision_dates t) in
  let all := Forall (fun rd => rd_completed rd = true) (t_revision_dates t) in
  let none := Forall (fun rd => rd_completed rd = false) (t_revision_dates t) in
  (status = statusColor COMPLETE <-> all) /\
  (status = statusColor NONE <-> none) /\
  (status = statusColor PARTIAL <-> ~ all /\ ~ none) /\
  (showsCompletedBadge t = true <-> status = statusColor COMPLETE).
Proof.
  intros status all none. subst status all none.
  rewrite <- completedCount_all, <- completedCount_none, Hthree.
  unfold showsCompletedBadge, getRevisionStatusColor.
  pose proof (completedCount_le (t_revision_dates t)) as Hle.
  rewrite Hthree in Hle.
  destruct (completedCount (t_revision_dates t)) as [|[|[|[|n]]]]; simpl;
    try lia; repeat split; try done; try lia; intros []; lia.
Qed.
End StatusFacts.

Lemma status_trichotomy_witness :
  length (Model.t_revision_dates sampleTopic) = 3%nat /\
  SubjectDetail.getRevisionStatusColor (Model.t_revision_dates sampleTopic)
  = SubjectDetail.statusColor SubjectDetail.PARTIAL.
Proof.
  split; [reflexivity|].
  apply (status_trichotomy sampleTopic eq_refl).
  split; intros H; inversion H as [|? ? H1 H2]; subst;
    [discriminate | inversion H2; discriminate].
Defined.

(** ** Calendar-day arithmetic *)

Section DateFacts.
Import DateFns.

Lemma msOfDay_range (d : Date) : 0 <= msOfDay d < msPerDay.
Proof. unfold msOfDay, msPerDay. apply Z.mod_pos_bound. lia. Qed.

Lemma getTime_split (d : Date) :
  getTime d = epochDay d * msPerDay + msOfDay d.
Proof.
  unfold epochDay, msOfDay, msPerDay.
  pose proof (Z.div_mod (getTime d) 86400000). lia.
Qed.

(** [addDays] moves to the calendar day [amount] days later ... *)
Lemma epochDay_addDays (d : Date) (amount : Z) :
  epochDay (addDays d amount) = epochDay d + amount.
Proof.
  pose proof (msOfDay_range d) as Hr.
  unfold addDays, epochDay at 1. simpl.
  unfold msPerDay in *.
  rewrite Z.div_add_l by lia. rewrite Z.div_small by lia. lia.
Qed.

(** ... and keeps the time of day. *)
Lemma msOfDay_addDays (d : Date) (amount : Z) :
  msOfDay (addDays d amount) = msOfDay d.
Proof.
  pose proof (msOfDay_range d) as Hr.
  unfold addDays, msOfDay at 1. simpl.
  unfold msPerDay in *.
  rewrite Z.add_comm, Z.mod_add by lia. apply Z.mod_small. lia.
Qed.

(** The 9 AM trigger of a revision day at least one day ahead is in the
    future. *)
Lemma revisionDate_after (now : Date) (day : Z) :
  1 <= day -> after (AddTopic.revisionDate now day) now = true.
Proof.
  intros Hday. unfold after, AddTopic.revisionDate, setHours. simpl.
  rewrite epochDay_addDays. apply Z.ltb_lt.
  rewrite (getTime_split now) at 1.
  pose proof (msOfDay_range now). unfold msPerDay in *. lia.
Qed.
End DateFacts.

(** ** Schedule generation *)

(** C1: for every creation date [d] the schedule generation yields exactly
    three checkpoints, with day offsets 2, 7 and 14, dated [d] plus 2, 7 and
    14 calendar days, each initially not completed.  The offsets are the
    revision days the add-topic screen schedules reminders for, and the dates
    are those of its schedule preview. *)
Theorem generate_schedule (d : DateFns.Date) :
  length (Store.generate d) = 3%nat /\
  map Model.rd_day_number (Store.generate d) = [2; 7; 14] /\
  map Model.rd_date (Store.generate d)
  = [DateFns.isoOfDay (DateFns.epochDay d + 2);
     DateFns.isoOfDay (DateFns.epochDay d + 7);
     DateFns.isoOfDay (DateFns.epochDay d + 14)] /\
  Forall (fun c => Model.rd_completed c = false) (Store.generate d) /\
  map Model.rd_day_number (Store.generate d) = AddTopic.revisionDays /\
  map snd (AddTopic.schedulePreview d)
  = map (fun c => DateFns.format_dd_MMM_yyyy (DateFns.addDays d (Model.rd_day_number c)))
        (Store.generate d).
Proof.
  repeat split.
  - unfold Store.generate, Store.checkpoint, DateFns.format_yyyy_MM_dd. simpl.
    by rewrite !epochDay_addDays.
  - repeat constructor.
Qed.

(** The scenario of a topic created on 2024-01-01, at any time of the day. *)
Example generate_2024_01_01 :
  Store.generate (DateFns.mkDate (DateFns.getTime (DateFns.ofCivil 2024 1 1) + 43200000))
  = [Model.mkRevisionDate "2024-01-03" 2 false;
     Model.mkRevisionDate "2024-01-08" 7 false;
     Model.mkRevisionDate "2024-01-15" 14 false].
Proof. vm_compute. reflexivity. Qed.

(** ** Reminders at topic creation *)

Section ReminderFacts.
Import Model DateFns World AddTopic.

Lemma attempted_all {A : Type} (accepts : A -> bool) (requests : list A) :
  (forall request, In request requests -> accepts request = true) ->
  attempted accepts requests = requests.
Proof.
  induction requests as [|request rest IH]; intros Hall; simpl; [done|].
  rewrite (Hall request) by (by left). f_equal. apply IH.
  intros r Hr. apply Hall. by right.
Qed.

Lemma attempted_In {A : Type} (accepts : A -> bool) (requests : list A) (request : A) :
  In request (attempted accepts requests) -> In request requests.
Proof.
  induction requests as [|r rest IH]; simpl; [done|].
  destruct (accepts r); simpl; [|tauto].
  intros [Hr|Hr]; [by left|right; by apply IH].
Qed.

Lemma attempted_length {A : Type} (accepts : A -> bool) (requests : list A) :
  (length (attempted accepts requests) <= length requests)%nat.
Proof.
  induction requests as [|r rest IH]; simpl; [done|].
  destruct (accepts r); simpl; lia.
Qed.

(** The loop hands over one call per day whose trigger is strictly in the
    future, in order, skips the other days, and ends at a rejected call. *)
Lemma scheduleLoop_calls (accepts : NotificationRequest -> bool) (now : Date)
    (topicName subjectName : string) (days : list Z) :
  notifications (fst (scheduleLoop accepts now topicName subjectName days))
  = attempted accepts
      (map (notification now topicName subjectName)
           (List.filter (fun day => after (revisionDate now day) now) days)).
Proof.
  unfold notifications.
  induction days as [|day rest IH]; simpl; [done|].
  destruct (after (revisionDate now day) now); simpl; [|exact IH].
  destruct (accepts (notification now topicName subjectName day)); [|done].
  destruct (scheduleLoop accepts now topicName subjectName rest) as [calls completed].
  simpl in *. f_equal. exact IH.
Qed.

Lemma revisionDays_future (now : Date) :
  List.filter (fun day => after (revisionDate now day) now) revisionDays
  = revisionDays.
Proof.
  unfold revisionDays. simpl.
  rewrite !revisionDate_after by lia. done.
Qed.

(** The calls of an accepted creation are those of [scheduleNotifications]
    for the selected subject, whether the loop ran to its end or not. *)
Lemma addTopic_accepted (API_URL : string) (st : State) (os : OS) (now : Date)
    (accepts : NotificationRequest -> bool) :
  JS.truthy (selectedSubjectId st) = true ->
  JS.truthy (JS.trim (AddTopic.topicName st)) = true ->
  notifications (snd (addTopic API_URL st os now accepts (Ok tt)))
  = notifications
      (fst match List.find (fun s => String.eqb (s_id s) (selectedSubjectId st))
                           (subjects st) with
           | Some selectedSubject =>
               scheduleNotifications accepts os now (JS.trim (AddTopic.topicName st))
                                     (s_name selectedSubject)
           | None => ([], true)
           end).
Proof.
  intros Hsubject Hname. unfold addTopic. rewrite Hsubject, Hname. simpl.
  destruct (match List.find _ _ with Some _ => _ | None => _ end)
    as [scheduled completed].
  unfold notifications. simpl.
  destruct completed; rewrite omap_app; simpl; apply app_nil_r.
Qed.

(** C9, amended: at topic-creation time, when the store has accepted the
    topic of a filled form, on a platform other than web and with the
    selected subject among the loaded subjects, one notification-scheduling
    call carrying a title, a body and a 9 AM trigger date is made for each of
    the three revision checkpoints in turn, up to and including the first
    call that the scheduling capability rejects: all three when none is
    rejected.  The loop skips exactly the days whose trigger date is not
    strictly in the future, which is none of the three.  On web, and when
    the selected subject is not among the loaded subjects, no call is
    made. *)
Theorem notifications_on_creation (API_URL : string) (st : State) (os : OS)
    (now : Date) (accepts : NotificationRequest -> bool)
    (Hselected : JS.truthy (selectedSubjectId st) = true)
    (Hname : JS.truthy (JS.trim (AddTopic.topicName st)) = true) :
  let calls := notifications (snd (addTopic API_URL st os now accepts (Ok tt))) in
  let name := JS.trim (AddTopic.topicName st) in
  let found := List.find (fun s => String.eqb (s_id s) (selectedSubjectId st))
                         (subjects st) in
  (os = web -> calls = []) /\
  (found = None -> calls = []) /\
  (forall subject, os <> web -> found = Some subject ->
     let requests := map (notification now name (s_name subject)) revisionDays in
     calls = attempted accepts requests /\
     ((forall request, In request requests -> accepts request = true) ->
      calls = requests /\ length calls = 3%nat) /\
     Forall (fun call =>
               n_title call = "Time to revise: " +:+ name /\
               n_body call = "Day " +:+ JS.numberToString (n_data_day call)
                             +:+ " revision for " +:+ s_name subject /\
               n_trigger_date call = revisionDate now (n_data_day call) /\
               after (n_trigger_date call) now = true) calls) /\
  (forall subjectName days,
      notifications (fst (scheduleLoop accepts now name subjectName days))
      = attempted accepts
          (map (notification now name subjectName)
               (List.filter (fun day => after (revisionDate now day) now) days))).
Proof.
  intros calls name found. subst calls name found.
  rewrite addTopic_accepted by done.
  split; [|split; [|split]].
  - intros ->. by destruct (List.find _ _).
  - by intros ->.
  - intros subject Hos ->. unfold scheduleNotifications.
    assert (OS_eqb os web = false) as -> by (by destruct os).
    rewrite scheduleLoop_calls, revisionDays_future.
    split; [done|]. split.
    + intros Hall. by rewrite attempted_all.
    + apply List.Forall_forall. intros call Hcall%attempted_In.
      apply in_map_iff in Hcall as (day & <- & Hday). simpl.
      repeat split. apply revisionDate_after.
      unfold revisionDays in Hday. simpl in Hday. lia.
  - intros subjectName days. apply scheduleLoop_calls.
Qed.
End ReminderFacts.

Lemma notifications_on_creation_witness :
  map World.n_body
      (World.notifications
         (snd (AddTopic.addTopic "http://store" (readyForm [surgery]) World.android
                 newYearMorning alwaysAccepts (World.Ok tt))))
  = ["Day 2 revision for Surgery"; "Day 7 revision for Surgery";
     "Day 14 revision for Surgery"].
Proof.
  destruct (notifications_on_creation "http://store" (readyForm [surgery])
              World.android newYearMorning alwaysAccepts)
    as (_ & _ & Hfound & _); [reflexivity | reflexivity |].
  destruct (Hfound surgery) as (Hcalls & _); [discriminate | reflexivity |].
  rewrite Hcalls. reflexivity.
Defined.

(** C9 as stated fails: on the web platform, and when the selected subject
    is not among the loaded subjects, a successful creation emits no
    notification call although all three trigger dates are in the future and
    every call would be accepted. *)
Lemma notifications_on_creation_counterexample :
  let triggers := map (AddTopic.revisionDate newYearMorning) AddTopic.revisionDays in
  forallb (fun trigger => DateFns.after trigger newYearMorning) triggers = true /\
  AddTopic.addTopic "http://store" (readyForm [surgery]) World.web
    newYearMorning alwaysAccepts (World.Ok tt)
  = (readyForm [surgery],
     [World.Fetch "POST" "http://store/api/topics"
        (Some [("subject_id", JS.JStr "s1");
               ("name", JS.JStr "Bowel Obstruction");
               ("notes", JS.JStr "notes")]);
      World.AlertThenBack "Success" "Topic added successfully with revision reminders!"]) /\
  World.notifications
    (snd (AddTopic.addTopic "http://store" (readyForm []) World.ios
            newYearMorning alwaysAccepts (World.Ok tt))) = [].
Proof. vm_compute. repeat split. Qed.

(** A scheduling capability that rejects the call for day 7: the day-14
    call is never made, and the creation, although accepted by the store,
    ends in the failure alert. *)
Example addTopic_rejected_reminder :
  let rejectsDay7 := fun request => negb (World.n_data_day request =? 7) in
  map (fun e => match e with
                | World.ScheduleNotification request =>
                    "call " +:+ JS.numberToString (World.n_data_day request)
                | World.Fetch method _ _ => method
                | World.Alert _ message => message
                | World.AlertThenBack _ message => message
                | World.ConsoleError message => message
                end)
      (snd (AddTopic.addTopic "http://store" (readyForm [surgery]) World.android
              newYearMorning rejectsDay7 (World.Ok tt)))
  = ["POST"; "call 2"; "call 7"; "Error adding topic:"; "Failed to add topic"].
Proof. vm_compute. reflexivity. Qed.

(** ** The calendar index *)

Section CalendarFacts.
Import Model Home.

Lemma forDate_app (l1 l2 : list Revision) (date : string) :
  forDate (l1 ++ l2) date = forDate l1 date ++ forDate l2 date.
Proof. apply List.filter_app. Qed.

Lemma dateCounts_snoc (l : list Revision) (r : Revision) :
  dateCounts (l ++ [r])
  = <[r_revision_date r := JS.orZero (dateCounts l !! r_revision_date r) + 1]>
      (dateCounts l).
Proof. unfold dateCounts. by rewrite fold_left_app. Qed.

(** [dateCounts] maps each date that occurs to the number of its revisions,
    and holds no other date. *)
Lemma dateCounts_lookup (revisions : list Revision) (date : string) :
  dateCounts revisions !! date
  = match forDate revisions date with
    | [] => None
    | found => Some (Z.of_nat (length found))
    end.
Proof.
  induction revisions as [|r l IH] using rev_ind; [done|].
  rewrite dateCounts_snoc, forDate_app, lookup_insert. simpl.
  destruct (String.eqb_spec (r_revision_date r) date) as [->|Hne].
  - rewrite decide_True by done. rewrite IH.
    destruct (forDate l date) as [|x found]; simpl; [done|].
    rewrite length_app. simpl. f_equal. lia.
  - rewrite decide_False by done. rewrite IH, app_nil_r. done.
Qed.

Lemma hasRevisions_forDate (revisions : list Revision) (date : string) :
  hasRevisions revisions date = false <-> forDate revisions date = [].
Proof.
  unfold hasRevisions, forDate.
  induction revisions as [|r l IH]; simpl; [done|].
  destruct (String.eqb (r_revision_date r) date); simpl; [|done].
  split; discriminate.
Qed.

Lemma hasRevisions_In (revisions : list Revision) (r : Revision) :
  In r revisions -> hasRevisions revisions (r_revision_date r) = true.
Proof.
  intros Hr. apply existsb_exists. exists r. by rewrite String.eqb_refl.
Qed.

Lemma buildMarks_lookup (revisions : list Revision) (selectedDate todayStr date : string) :
  buildMarks revisions selectedDate todayStr !! date
  = markerAt revisions selectedDate todayStr date.
Proof.
  assert (Hstage0 : forall d,
    map_imap (fun dateStr (_ : Z) => Some (revisionMarker todayStr selectedDate dateStr))
             (dateCounts revisions) !! d
    = if hasRevisions revisions d
      then Some (revisionMarker todayStr selectedDate d) else None).
  { intros d. rewrite map_lookup_imap, dateCounts_lookup.
    destruct (hasRevisions revisions d) eqn:Hhas.
    - destruct (forDate revisions d) eqn:Hfor; [|done].
      apply hasRevisions_forDate in Hfor. congruence.
    - apply hasRevisions_forDate in Hhas. by rewrite Hhas. }
  unfold buildMarks, markerAt. cbv zeta.
  set (marks0 := map_imap _ _) in *.
  set (marks1 := match marks0 !! selectedDate with
                 | Some m => _ | None => _ end).
  assert (Hstage1 : forall d,
    marks1 !! d = if decide (selectedDate = d)
                  then Some (from_option select selectedOnly (marks0 !! d))
                  else marks0 !! d).
  { intros d. unfold marks1.
    destruct (marks0 !! selectedDate) eqn:Hsel; rewrite lookup_insert;
      case_decide; subst; by rewrite ?Hsel. }
  rewrite lookup_alter. case_decide as Htoday.
  - subst date. destruct (marks1 !! todayStr) eqn:Hm1.
    + rewrite Hm1. rewrite Hstage1, Hstage0 in Hm1. by rewrite Hm1.
    + rewrite lookup_insert_eq. rewrite Hstage1, Hstage0 in Hm1. by rewrite Hm1.
  - destruct (marks1 !! todayStr) eqn:Hm1.
    + by rewrite Hstage1, Hstage0.
    + rewrite lookup_insert_ne by done. by rewrite Hstage1, Hstage0.
Qed.
End CalendarFacts.

Section CalendarClaims.
Import Model Home.

Lemma selected_iff (revisions : list Revision) (selectedDate todayStr date : string) (m : Marker) :
  buildMarks revisions selectedDate todayStr !! date = Some m ->
  (selected m = Some true <-> date = selectedDate) /\
  (date <> selectedDate -> selected m = None).
Proof.
  rewrite buildMarks_lookup. unfold markerAt.
  destruct (decide (selectedDate = date)) as [->|Hsel].
  - intros Hm. assert (selected m = Some true) as ->.
    { destruct (hasRevisions revisions date), (decide (todayStr = date));
        simpl in Hm; by injection Hm as <-. }
    by split.
  - intros Hm. assert (selected m = None) as ->.
    { unfold revisionMarker in Hm.
      destruct (String.eqb_spec date selectedDate) as [Heq|_]; [by subst|].
      destruct (hasRevisions revisions date), (decide (todayStr = date));
        simpl in Hm; try discriminate; by injection Hm as <-. }
    split; [|done]. split; [discriminate|]. by intros ->.
Qed.

Lemma selectedDate_flagged (revisions : list Revision) (selectedDate todayStr : string) :
  exists m, buildMarks revisions selectedDate todayStr !! selectedDate = Some m /\
            selected m = Some true.
Proof.
  assert (Hsome : is_Some (buildMarks revisions selectedDate todayStr !! selectedDate)).
  { rewrite buildMarks_lookup. unfold markerAt.
    rewrite (decide_True (P := selectedDate = selectedDate)) by done.
    case_decide; by eexists. }
  destruct Hsome as [m Hm]. exists m. split; [done|].
  by apply (proj1 (selected_iff _ _ _ _ _ Hm)).
Qed.

(** C3: for every record set, selected date and today date, the built marker
    map has an entry for the selected date, flagged selected, and an entry
    for today, carrying the today style; every date that occurs in the
    record set has an entry marked as having revisions.  With an empty
    record set the entries are exactly those of the selected date and of
    today. *)
Theorem calendar_index_entries (revisions : list Revision)
    (selectedDate todayStr : string) :
  let marks := buildMarks revisions selectedDate todayStr in
  (exists m, marks !! selectedDate = Some m /\ selected m = Some true) /\
  (exists m, marks !! todayStr = Some m /\
             customStyles m = Some {| borderWidth := 2; borderColor := "#4ade80" |}) /\
  (forall r, In r revisions ->
             exists m, marks !! r_revision_date r = Some m /\ marked m = Some true) /\
  (forall date, is_Some (buildMarks [] selectedDate todayStr !! date)
                <-> date = selectedDate \/ date = todayStr) /\
  (forall st now, markedDates st now
                  = buildMarks (allRevisions st) (Home.selectedDate st)
                               (DateFns.format_yyyy_MM_dd now)).
Proof.
  intros marks. subst marks. repeat split.
  - apply selectedDate_flagged.
  - rewrite buildMarks_lookup. unfold markerAt. rewrite (decide_True (P := todayStr = todayStr)) by done.
    by eexists.
  - intros r Hr. rewrite buildMarks_lookup. unfold markerAt.
    rewrite (hasRevisions_In _ _ Hr). simpl.
    repeat case_decide; by eexists.
  - rewrite buildMarks_lookup. unfold markerAt. simpl.
    repeat case_decide; subst; intros [m Hm]; try discriminate; auto.
  - rewrite buildMarks_lookup. unfold markerAt. simpl.
    intros [->| ->]; repeat case_decide; try done; by eexists.
Qed.

(** C7: the selection starts at today's date, [onDayPress] makes the pressed
    date the selected one, and in every built marker map the entry of the
    selected date, and no other entry, carries the selected flag; so after a
    press on another date the previously selected date's marker, if it still
    exists, is no longer flagged.  Refetching does not move the selection. *)
Theorem selection_unique (API_URL : string) (st : State) (now : DateFns.Date) :
  selectedDate (init now) = DateFns.format_yyyy_MM_dd now /\
  (forall newDate, selectedDate (onDayPress st newDate) = newDate) /\
  (forall date,
      (exists m, markedDates st now !! date = Some m /\ selected m = Some true)
      <-> date = selectedDate st) /\
  (forall date m, markedDates st now !! date = Some m ->
                  date <> selectedDate st -> selected m = None) /\
  (forall newDate m,
      newDate <> selectedDate st ->
      markedDates (onDayPress st newDate) now !! selectedDate st = Some m ->
      selected m = None) /\
  (forall clock todayRes upcomingRes,
      selectedDate (fst (fetchRevisions API_URL st clock todayRes upcomingRes))
      = selectedDate st).
Proof.
  split; [done|]. split; [done|]. split; [|split; [|split]].
  - intros date. unfold markedDates. split.
    + intros (m & Hm & Hflag). by apply (proj1 (selected_iff _ _ _ _ _ Hm)).
    + intros ->.
      apply selectedDate_flagged.
  - intros date m Hm Hne. by apply (proj2 (selected_iff _ _ _ _ _ Hm)).
  - intros newDate m Hne Hm. unfold markedDates, onDayPress in Hm. simpl in Hm.
    apply (proj2 (selected_iff _ _ _ _ _ Hm)). congruence.
  - intros clock todayRes upcomingRes. unfold fetchRevisions.
    destruct todayRes, upcomingRes; done.
Qed.
End CalendarClaims.

Lemma calendar_index_entries_witness :
  In (sampleRevision "t1" "Bowel Obstruction" "Surgery" "2024-01-03" 2) sampleUpcoming /\
  exists m, Home.buildMarks sampleUpcoming "2024-01-20" "2024-01-02" !! "2024-01-03" = Some m /\
            Home.marked m = Some true.
Proof.
  split; [by left|].
  destruct (calendar_index_entries sampleUpcoming "2024-01-20" "2024-01-02")
    as (_ & _ & Hmarked & _).
  apply (Hmarked (sampleRevision "t1" "Bowel Obstruction" "Surgery" "2024-01-03" 2)).
  by left.
Defined.

Lemma selection_unique_witness :
  "2024-01-03" <> Home.selectedDate (Home.init newYearMorning) /\
  forall m,
    Home.markedDates (Home.onDayPress (Home.init newYearMorning) "2024-01-03")
                     newYearMorning !! "2024-01-01" = Some m ->
    Home.selected m = None.
Proof.
  assert (Hne : "2024-01-03" <> Home.selectedDate (Home.init newYearMorning))
    by (vm_compute; discriminate).
  split; [exact Hne|].
  intros m.
  destruct (selection_unique "http://store" (Home.init newYearMorning) newYearMorning)
    as (_ & _ & _ & _ & Hcleared & _).
  apply Hcleared. exact Hne.
Defined.

(** ** Revisions of a date *)

Section ForDateFacts.
Import Model Home World.

Lemma forDate_none (records : list Revision) (date : string) :
  (forall r, In r records -> r_revision_date r <> date) ->
  forDate records date = [].
Proof.
  intros Hother. induction records as [|r l IH]; simpl; [done|].
  destruct (String.eqb_spec (r_revision_date r) date) as [Heq|_].
  - destruct (Hother r); auto. by left.
  - apply IH. intros x Hx. apply Hother. by right.
Qed.

(** C5: [forDate] is an exact-date filter over the combined record set, the
    today records followed by the upcoming ones: it returns exactly the
    records whose revision date equals the date, each as often as it occurs,
    and it is what a press on a day shows.  When two records, of two topics,
    are the only ones dated [date], it returns exactly these two, unchanged,
    so with their subject and topic names. *)
Theorem forDate_exact (records : list Revision) (date : string) :
  (forall r, In r (forDate records date)
             <-> In r records /\ r_revision_date r = date) /\
  Permutation records
    (forDate records date
     ++ List.filter (fun r => negb (String.eqb (r_revision_date r) date)) records) /\
  (forall API_URL st now todayData upcomingData,
      let fetched := fst (fetchRevisions API_URL st now (Listed todayData)
                                         (Listed upcomingData)) in
      allRevisions fetched = todayData ++ upcomingData /\
      selectedDateRevisions (onDayPress fetched date)
      = forDate (todayData ++ upcomingData) date) /\
  (forall before between after rA rB,
      records = before ++ rA :: between ++ rB :: after ->
      r_revision_date rA = date -> r_revision_date rB = date ->
      (forall r, In r (before ++ between ++ after) -> r_revision_date r <> date) ->
      forDate records date = [rA; rB]).
Proof.
  split; [|split; [|split]].
  - intros r. unfold forDate. by rewrite filter_In, String.eqb_eq.
  - unfold forDate. induction records as [|r l IH]; simpl; [done|].
    destruct (String.eqb (r_revision_date r) date); simpl.
    + by constructor.
    + rewrite IH at 1. apply Permutation_middle.
  - done.
  - intros before between after rA rB -> HA HB Hother.
    rewrite !forDate_app. simpl. rewrite forDate_app. simpl.
    rewrite HA, HB, !String.eqb_refl.
    rewrite !forDate_none; [done|..];
      intros r Hr; apply Hother; rewrite !in_app_iff; auto.
Qed.
End ForDateFacts.

Lemma forDate_exact_witness :
  let combined := sampleToday ++ sampleUpcoming in
  Home.forDate combined "2024-01-03"
  = [sampleRevision "t1" "Bowel Obstruction" "Surgery" "2024-01-03" 2;
     sampleRevision "t2" "Heart Failure" "Medicine" "2024-01-03" 7].
Proof.
  destruct (forDate_exact (sampleToday ++ sampleUpcoming) "2024-01-03")
    as (_ & _ & _ & Htwo).
  apply Htwo
    with (before := sampleToday)
         (between := [sampleRevision "t1" "Bowel Obstruction" "Surgery" "2024-01-08" 7])
         (after := [sampleRevision "t2" "Heart Failure" "Medicine" "2024-01-10" 14]);
    try reflexivity.
  intros r Hr. simpl in Hr.
  destruct Hr as [<-|[<-|[<-|[]]]]; discriminate.
Defined.

(** ** Completion of a checkpoint *)

Section CompletionFacts.
Import Model Store.

Lemma completeAt_day (dayOffset : Z) (rd : RevisionDate) :
  rd_day_number (completeAt dayOffset rd) = rd_day_number rd.
Proof. unfold completeAt. by destruct (hasOffset dayOffset rd). Qed.

Lemma completeAt_date (dayOffset : Z) (rd : RevisionDate) :
  rd_date (completeAt dayOffset rd) = rd_date rd.
Proof. unfold completeAt. by destruct (hasOffset dayOffset rd). Qed.

Lemma completeAt_idem (dayOffset : Z) (rd : RevisionDate) :
  completeAt dayOffset (completeAt dayOffset rd) = completeAt dayOffset rd.
Proof.
  unfold completeAt. destruct (hasOffset dayOffset rd) eqn:Hoff; [|by rewrite Hoff].
  unfold hasOffset in *. simpl. by rewrite Hoff.
Qed.

Lemma completeAt_done (dayOffset : Z) (rd : RevisionDate) :
  (rd_day_number rd = dayOffset -> rd_completed rd = true) ->
  completeAt dayOffset rd = rd.
Proof.
  intros Hdone. unfold completeAt, hasOffset.
  destruct (Z.eqb_spec (rd_day_number rd) dayOffset) as [Heq|_]; [|done].
  destruct rd as [date day completed]. simpl in *. by rewrite Hdone.
Qed.

Lemma hasOffset_completeAt (dayOffset : Z) (l : list RevisionDate) :
  existsb (hasOffset dayOffset) (map (completeAt dayOffset) l)
  = existsb (hasOffset dayOffset) l.
Proof.
  induction l as [|rd l IH]; simpl; [done|].
  unfold hasOffset at 1. by rewrite completeAt_day, IH.
Qed.

Lemma markCompleted_checkpoints (t t' : Topic) (dayOffset : Z) :
  markCompleted t dayOffset = inr t' ->
  t_revision_dates t' = map (completeAt dayOffset) (t_revision_dates t).
Proof.
  unfold markCompleted.
  destruct (existsb _ _); [|discriminate]. by intros [= <-].
Qed.

(** C6: [markCompleted] fails with [InvalidCheckpoint] exactly when no
    checkpoint of the topic has the day offset, so for a topic with the
    checkpoints 2, 7, 14 whenever the offset is none of these.  Otherwise it
    succeeds; the resulting topic has the same checkpoints with those of that
    offset completed and the others untouched; marking again yields the same
    topic; and when the checkpoint was completed already the topic is
    returned unchanged. *)
Theorem markCompleted_spec (t : Topic) (dayOffset : Z) :
  (markCompleted t dayOffset = inl InvalidCheckpoint
   <-> forall rd, In rd (t_revision_dates t) -> rd_day_number rd <> dayOffset) /\
  (wf_topic t -> dayOffset <> 2 -> dayOffset <> 7 -> dayOffset <> 14 ->
   markCompleted t dayOffset = inl InvalidCheckpoint) /\
  (forall t', markCompleted t dayOffset = inr t' ->
     markCompleted t' dayOffset = inr t' /\
     map rd_day_number (t_revision_dates t') = map rd_day_number (t_revision_dates t) /\
     map rd_date (t_revision_dates t') = map rd_date (t_revision_dates t) /\
     (forall rd, In rd (t_revision_dates t') -> rd_day_number rd = dayOffset ->
                 rd_completed rd = true) /\
     (forall rd, In rd (t_revision_dates t) -> rd_day_number rd <> dayOffset ->
                 In rd (t_revision_dates t'))) /\
  ((exists rd, In rd (t_revision_dates t) /\ rd_day_number rd = dayOffset) ->
   (forall rd, In rd (t_revision_dates t) -> rd_day_number rd = dayOffset ->
               rd_completed rd = true) ->
   markCompleted t dayOffset = inr t).
Proof.
  assert (Hfails : markCompleted t dayOffset = inl InvalidCheckpoint
            <-> forall rd, In rd (t_revision_dates t) -> rd_day_number rd <> dayOffset).
  { unfold markCompleted.
    destruct (existsb (hasOffset dayOffset) (t_revision_dates t)) eqn:Hex.
    - split; [discriminate|]. intros Hnone.
      apply existsb_exists in Hex as (rd & Hrd & Hoff).
      apply Z.eqb_eq in Hoff. by destruct (Hnone rd Hrd).
    - split; [|done]. intros _ rd Hrd Hoff.
      assert (existsb (hasOffset dayOffset) (t_revision_dates t) = true); [|congruence].
      apply existsb_exists. exists rd. split; [done|]. by apply Z.eqb_eq. }
  split; [exact Hfails|]. split; [|split].
  - intros Hwf H2 H7 H14. apply Hfails. intros rd Hrd.
    apply (in_map rd_day_number) in Hrd. rewrite Hwf in Hrd.
    simpl in Hrd. intuition congruence.
  - intros t' Hok. pose proof (markCompleted_checkpoints _ _ _ Hok) as Hcps.
    split; [|split; [|split; [|split]]].
    + unfold markCompleted in *.
      destruct (existsb (hasOffset dayOffset) (t_revision_dates t)) eqn:Hex;
        [|discriminate].
      injection Hok as <-. simpl.
      rewrite hasOffset_completeAt, Hex. f_equal. f_equal.
      rewrite map_map. apply map_ext. intros rd. apply completeAt_idem.
    + rewrite Hcps, map_map. apply map_ext. intros rd. apply completeAt_day.
    + rewrite Hcps, map_map. apply map_ext. intros rd. apply completeAt_date.
    + intros rd' Hrd' Hday. rewrite Hcps in Hrd'.
      apply in_map_iff in Hrd' as (rd & <- & _).
      rewrite completeAt_day in Hday. unfold completeAt, hasOffset.
      apply Z.eqb_eq in Hday. by rewrite Hday.
    + intros rd Hrd Hday. rewrite Hcps. apply in_map_iff. exists rd.
      split; [|done]. unfold completeAt, hasOffset.
      apply Z.eqb_neq in Hday. by rewrite Hday.
  - intros (rd & Hrd & Hday) Hdone. unfold markCompleted.
    assert (existsb (hasOffset dayOffset) (t_revision_dates t) = true) as ->.
    { apply existsb_exists. exists rd. split; [done|]. by apply Z.eqb_eq. }
    destruct t as [id sid sname name notes created cps]. simpl in *.
    f_equal. f_equal.
    rewrite <- (map_id cps) at 2. apply map_ext_in.
    intros c Hc. apply completeAt_done. by apply Hdone.
Qed.

(** The home screen's [markAsCompleted] hands the topic id and the day offset
    to the store and leaves the screen state as it is; a refused completion
    only shows an error. *)
Lemma markAsCompleted_effects (API_URL : string) (st : Home.State)
    (topicId : string) (dayNumber : Z) (response : World.Response unit) :
  let request :=
    World.Fetch "POST" (API_URL +:+ "/api/topics/complete-revision")
      (Some [("topic_id", JS.JStr topicId); ("day_number", JS.JNum dayNumber)]) in
  fst (Home.markAsCompleted API_URL st topicId dayNumber response) = st /\
  head (snd (Home.markAsCompleted API_URL st topicId dayNumber response))
  = Some request /\
  (forall detail, response = World.Failed detail ->
     snd (Home.markAsCompleted API_URL st topicId dayNumber response)
     = [request; World.Alert "Error" "Failed to mark revision as completed"]).
Proof.
  destruct response; repeat split; try done; by intros detail' [= <-].
Qed.
End CompletionFacts.

Lemma markCompleted_spec_witness :
  Model.wf_topic freshTopic /\
  Store.markCompleted freshTopic 3 = inl Store.InvalidCheckpoint.
Proof.
  split; [reflexivity|].
  apply (markCompleted_spec freshTopic 3); [reflexivity | lia | lia | lia].
Defined.

(** The scenario: after completing day 2 the status is PARTIAL and only the
    2024-01-03 checkpoint is completed. *)
Example markCompleted_day2 :
  exists t', Store.markCompleted freshTopic 2 = inr t' /\
    Model.t_revision_dates t'
    = [Model.mkRevisionDate "2024-01-03" 2 true;
       Model.mkRevisionDate "2024-01-08" 7 false;
       Model.mkRevisionDate "2024-01-15" 14 false] /\
    SubjectDetail.getRevisionStatusColor (Model.t_revision_dates t')
    = SubjectDetail.statusColor SubjectDetail.PARTIAL.
Proof. eexists. split; [reflexivity|]. split; vm_compute; reflexivity. Qed.

(** ** Aggregation *)

Section AggregationFacts.
Import Model Store.

(** Two disjoint tests and their common complement split a list. *)
Lemma filter_three_way {A : Type} (p q : A -> bool) (l : list A) :
  (forall x, p x = true -> q x = false) ->
  Permutation
    (List.filter p l ++ List.filter q l
     ++ List.filter (fun x => negb (p x) && negb (q x)) l) l.
Proof.
  intros Hdisjoint. induction l as [|x l IH]; simpl; [done|].
  destruct (p x) eqn:Hp; simpl.
  - rewrite (Hdisjoint x Hp). simpl. by constructor.
  - destruct (q x); simpl.
    + rewrite <- Permutation_middle. by constructor.
    + rewrite app_assoc, <- Permutation_middle, <- app_assoc. by constructor.
Qed.

Lemma today_not_upcoming (now : string) (r : RevisionRecord) :
  isToday now r = true -> isUpcoming now r = false.
Proof.
  unfold isToday, isUpcoming, String.ltb. intros ->%String.eqb_eq.
  pose proof (String.compare_antisym now now) as Hanti.
  destruct (String.compare now now); done.
Qed.

Lemma allRecords_length (topics : list Topic) :
  Forall (fun t => length (t_revision_dates t) = 3%nat) topics ->
  length (allRecords topics) = (3 * length topics)%nat.
Proof.
  unfold allRecords, recordsOf.
  induction 1 as [|t l Ht _ IH]; simpl; [done|].
  rewrite length_app, length_map, Ht, IH. lia.
Qed.

(** C4: for every set of topics, each with its three checkpoints, the today,
    upcoming and past partitions taken together hold exactly the records of
    the topics, three per topic, none lost and none duplicated, whatever the
    completion flags are; completing a checkpoint changes none of this. *)
Theorem partitions_cover (topics : list Topic) (now : string)
    (Hthree : Forall (fun t => length (t_revision_dates t) = 3%nat) topics) :
  let union := today topics now ++ upcoming topics now ++ past topics now in
  Permutation union (allRecords topics) /\
  length union = (3 * length topics)%nat /\
  (forall t, In t topics -> length (recordsOf t) = 3%nat) /\
  (forall r, In r union
             <-> exists t rd, In t topics /\ In rd (t_revision_dates t) /\
                              r = recordOf t rd) /\
  (forall t dayOffset t', In t topics -> markCompleted t dayOffset = inr t' ->
                          length (recordsOf t') = 3%nat).
Proof.
  intros union.
  assert (Hperm : Permutation union (allRecords topics)).
  { subst union. unfold today, upcoming, past.
    rewrite sort_perm. apply filter_three_way, today_not_upcoming. }
  split; [exact Hperm|]. split; [|split; [|split]].
  - rewrite Hperm. by apply allRecords_length.
  - intros t Ht. unfold recordsOf. rewrite length_map.
    rewrite List.Forall_forall in Hthree. by apply Hthree.
  - intros r. rewrite Hperm. unfold allRecords, recordsOf.
    rewrite in_flat_map. split.
    + intros (t & Ht & (rd & <- & Hrd)%in_map_iff). eauto.
    + intros (t & rd & Ht & Hrd & ->). exists t. split; [done|].
      by apply in_map.
  - intros t dayOffset t' Ht Hok. unfold recordsOf.
    rewrite length_map, (markCompleted_checkpoints _ _ _ Hok), length_map.
    rewrite List.Forall_forall in Hthree. by apply Hthree.
Qed.
End AggregationFacts.

Lemma partitions_cover_witness :
  map Store.rr_topic_name (Store.today [freshTopic; olderTopic] "2024-01-03")
  = ["Bowel Obstruction"; "Heart Failure"] /\
  length (Store.today [freshTopic; olderTopic] "2024-01-03"
          ++ Store.upcoming [freshTopic; olderTopic] "2024-01-03"
          ++ Store.past [freshTopic; olderTopic] "2024-01-03") = 6%nat.
Proof.
  split; [vm_compute; reflexivity|].
  destruct (partitions_cover [freshTopic; olderTopic] "2024-01-03")
    as (_ & Hlength & _).
  { repeat constructor. }
  exact Hlength.
Defined.

(** * Vocabulary of the further properties *)



(** A run of the home screen that ends in a torn refetch. *)
Definition tornRun : list Home.Event :=
  [Home.Focus newYearMorning (World.Listed sampleToday) (World.Listed sampleUpcoming);
   Home.Focus newYearMorning (World.Listed []) World.Unreadable].


(** The [name] fields of the request bodies among a list of effects. *)
Definition sentNames (effects : list World.Effect) : list string :=
  flat_map
    (fun e =>
       match e with
       | World.Fetch _ _ (Some body) =>
           omap (fun field : string * JS.Json =>
                   match field with
                   | (key, JS.JStr value) =>
                       if String.eqb key "name" then Some value else None
                   | _ => None
                   end) body
       | _ => []
       end) effects.

(** A string neither starts nor ends with a blank. *)
Definition trimmed (s : string) : Prop :=
  (forall c, head (list_ascii_of_string s) = Some c -> JS.isWhiteSpace c = false) /\
  (forall c, last (list_ascii_of_string s) = Some c -> JS.isWhiteSpace c = false).

(** Subjects loaded from the store. *)
Definition medicine : Model.Subject := Model.mkSubject "s2" "Medicine" "2024-01-01".

(** The answers to the topic requests of [surgery] and [medicine]: two
    topics for the first, a rejected promise for the second. *)
Definition sampleTopicAnswers (i : nat) : World.Response (list Model.Topic) :=
  match i with
  | O => World.Ok [freshTopic; olderTopic]
  | _ => World.Threw
  end.

(** [sent] is what the store receives for the name [typed] in a form: the
    typed name without its leading and trailing blanks, not empty, and with
    no blank at either end. *)
Definition sentFor (typed sent : string) : Prop :=
  sent = JS.trim typed /\
  JS.truthy sent = true /\
  trimmed sent /\
  exists before after,
    list_ascii_of_string typed = before ++ list_ascii_of_string sent ++ after /\
    forallb JS.isWhiteSpace before = true /\ forallb JS.isWhiteSpace after = true.

(** The date of the last day press among the events, if there is one. *)
Definition lastPressed (events : list Home.Event) : option string :=
  fold_left (fun pressed ev =>
               match ev with
               | Home.DayPress dateString => Some dateString
               | _ => pressed
               end) events None.

(** * Further properties of the screens *)

(** ** Day labels and colours *)

(** X1: the label of a day badge is always "Day " followed by the day number;
    the three cases of the switch agree with its default. *)
Theorem getDayLabel_uniform (dayNumber : Z) :
  Home.getDayLabel dayNumber = "Day " +:+ JS.numberToString dayNumber.
Proof.
  unfold Home.getDayLabel.
  destruct (Z.eqb_spec dayNumber 2) as [->|_]; [done|].
  destruct (Z.eqb_spec dayNumber 7) as [->|_]; [done|].
  destruct (Z.eqb_spec dayNumber 14) as [->|_]; done.
Qed.

(** X2: the home screen and the edit screen colour a day alike; the days 2,
    7 and 14 get three different colours, and exactly the other days get the
    neutral one. *)
Theorem day_colours_consistent (day : Z) :
  Home.getDayColor day = EditTopic.getColorForDay day /\
  (Home.getDayColor day = "#6b7280" <-> day <> 2 /\ day <> 7 /\ day <> 14) /\
  (forall other, (day = 2 \/ day = 7 \/ day = 14) ->
                 Home.getDayColor other = Home.getDayColor day -> other = day).
Proof.
  split; [done|]. unfold Home.getDayColor. split.
  - destruct (Z.eqb_spec day 2); [split; [discriminate|lia]|].
    destruct (Z.eqb_spec day 7); [split; [discriminate|lia]|].
    destruct (Z.eqb_spec day 14); [split; [discriminate|lia]|]. done.
  - intros other Hday.
    destruct (Z.eqb_spec other 2), (Z.eqb_spec other 7), (Z.eqb_spec other 14);
      destruct Hday as [->|[->| ->]]; simpl; intros Heq;
      try discriminate; lia.
Qed.

Lemma day_colours_consistent_witness :
  Home.getDayColor 7 = "#3b82f6" /\
  forall other, Home.getDayColor other = Home.getDayColor 7 -> other = 7.
Proof.
  split; [reflexivity|].
  intros other. apply (day_colours_consistent 7). auto.
Defined.

(** ** The calendar index, completed *)

Section CalendarMore.
Import Model Home.

Lemma hasRevisions_true_iff (revisions : list Revision) (date : string) :
  hasRevisions revisions date = true
  <-> exists r, In r revisions /\ r_revision_date r = date.
Proof.
  unfold hasRevisions. rewrite existsb_exists.
  split; intros (r & Hr & Hdate); exists r; split; try done;
    by apply String.eqb_eq.
Qed.

(** X3: [dateCounts] maps every date that occurs among the revisions to the
    number of revisions of that date, which is at least 1, and has no entry
    for any other date. *)
Theorem dateCounts_counts (revisions : list Revision) (date : string) :
  (dateCounts revisions !! date = None
   <-> forall r, In r revisions -> r_revision_date r <> date) /\
  (forall count, dateCounts revisions !! date = Some count ->
     count = Z.of_nat (length (forDate revisions date)) /\ 1 <= count).
Proof.
  rewrite dateCounts_lookup. split.
  - destruct (forDate revisions date) as [|x found] eqn:Hfor.
    + split; [|done]. intros _ r Hr Hdate.
      assert (Hin : In r (forDate revisions date)).
      { unfold forDate. apply filter_In. split; [done|]. by apply String.eqb_eq. }
      by rewrite Hfor in Hin.
    + split; [discriminate|]. intros Hnone.
      assert (Hin : In x (forDate revisions date)) by (rewrite Hfor; by left).
      unfold forDate in Hin. apply filter_In in Hin as [Hx Hdate].
      apply String.eqb_eq in Hdate. by destruct (Hnone x Hx).
  - intros count. destruct (forDate revisions date) as [|x found]; [discriminate|].
    intros [= <-]. split; [done|]. simpl length. lia.
Qed.

(** X4: the marker map has an entry for a date exactly when the date has a
    revision, is the selected date or is today; nothing else is marked. *)
Theorem marks_domain (revisions : list Revision) (selectedDate todayStr date : string) :
  is_Some (buildMarks revisions selectedDate todayStr !! date)
  <-> (exists r, In r revisions /\ r_revision_date r = date)
      \/ date = selectedDate \/ date = todayStr.
Proof.
  rewrite buildMarks_lookup, <- hasRevisions_true_iff. unfold markerAt.
  destruct (hasRevisions revisions date);
    destruct (decide (selectedDate = date)) as [->|Hsel];
    destruct (decide (todayStr = date)) as [->|Htoday]; simpl;
    split; intros H; try (by eexists); auto.
  - destruct H as [x Hx]. discriminate.
  - destruct H as [H|[H|H]]; congruence.
Qed.

(** X5: in the marker map, an entry is marked as having revisions exactly
    when its date has one; its dot is green when that date is today and blue
    otherwise, and absent without revisions; the today ring is on the entry
    of today and on no other; an entry marked [false] is today's, without
    revisions and not selected. *)
Theorem marks_flags (revisions : list Revision) (selectedDate todayStr date : string)
    (m : Marker)
    (Hentry : buildMarks revisions selectedDate todayStr !! date = Some m) :
  let has := exists r, In r revisions /\ r_revision_date r = date in
  (marked m = Some true <-> has) /\
  (dotColor m = Some "#4ade80" <-> has /\ date = todayStr) /\
  (dotColor m = Some "#3b82f6" <-> has /\ date <> todayStr) /\
  (dotColor m = None <-> ~ has) /\
  (is_Some (customStyles m) <-> date = todayStr) /\
  (marked m = Some false -> date = todayStr /\ date <> selectedDate /\ ~ has).
Proof.
  intros has. subst has. rewrite <- hasRevisions_true_iff.
  rewrite buildMarks_lookup in Hentry. unfold markerAt, revisionMarker in Hentry.
  destruct (hasRevisions revisions date);
    destruct (decide (selectedDate = date)) as [->|Hsel];
    destruct (decide (todayStr = date)) as [->|Htoday];
    simpl in Hentry; try discriminate; injection Hentry as <-; simpl;
    rewrite ?String.eqb_refl;
    try (destruct (String.eqb_spec date todayStr) as [?|_]; [by subst|]);
    repeat split; try done; try discriminate; try (by intros [? ?]);
    try (by intros [? ?]%is_Some_alt); try (by intros ?; eexists);
    try (intros H; by destruct H); try congruence; intros; split; congruence.
Qed.
End CalendarMore.

Lemma marks_flags_witness :
  exists m, Home.buildMarks sampleUpcoming "2024-01-20" "2024-01-03" !! "2024-01-03" = Some m /\
            Home.dotColor m = Some "#4ade80".
Proof.
  eexists. split; [vm_compute; reflexivity|].
  apply (marks_flags sampleUpcoming "2024-01-20" "2024-01-03" "2024-01-03");
    [vm_compute; reflexivity|].
  split; [|reflexivity].
  exists (sampleRevision "t1" "Bowel Obstruction" "Surgery" "2024-01-03" 2).
  split; [by left|reflexivity].
Defined.

(** ** The home screen as a state machine *)

Section HomeMachine.
Import Model Home World.
Variable API_URL : string.







(** A torn refetch does break the inclusion: the today list is replaced
    while the calendar keeps the revisions it had. *)
Example torn_refetch_incoherent :
  ~ incl (allRevisions (run API_URL newYearMorning tornRun))
         (todayRevisions (run API_URL newYearMorning tornRun)
          ++ upcomingRevisions (run API_URL newYearMorning tornRun)).
Proof.
  intros Hincl.
  specialize (Hincl (sampleRevision "t0" "Appendicitis" "Surgery" "2024-01-02" 7)).
  simpl in Hincl.
  destruct Hincl as [H|[H|[H|[H|[]]]]]; [by left|discriminate..].
Qed.

(** X7: a refetch that completes keeps the selected date but shows the
    revisions of today's date under the calendar: a revision dated today is
    listed there although another date is selected. *)
Theorem refetch_lists_today (st : State) (now : DateFns.Date)
    (todayData upcomingData : list Revision) (r : Revision)
    (Hr : In r (todayData ++ upcomingData))
    (Htoday : r_revision_date r = DateFns.format_yyyy_MM_dd now)
    (Hother : selectedDate st <> DateFns.format_yyyy_MM_dd now) :
  let fetched := fst (fetchRevisions API_URL st now (Listed todayData)
                                     (Listed upcomingData)) in
  selectedDate fetched = selectedDate st /\
  In r (selectedDateRevisions fetched) /\
  r_revision_date r <> selectedDate fetched /\
  ~ In r (selectedDateRevisions (onDayPress fetched (selectedDate fetched))).
Proof.
  simpl. split; [done|]. split; [|split].
  - unfold forDate. apply filter_In. split; [done|]. by apply String.eqb_eq.
  - congruence.
  - unfold forDate. rewrite filter_In, String.eqb_eq. intros [_ Heq]. congruence.
Qed.
End HomeMachine.


Lemma refetch_lists_today_witness :
  let st := Home.onDayPress (Home.init newYearMorning) "2024-01-08" in
  let r := sampleRevision "t0" "Appendicitis" "Surgery" "2024-01-01" 7 in
  In r (Home.selectedDateRevisions
          (fst (Home.fetchRevisions "http://store" st newYearMorning
                  (World.Listed [r]) (World.Listed sampleUpcoming)))).
Proof.
  apply (refetch_lists_today "http://store"
           (Home.onDayPress (Home.init newYearMorning) "2024-01-08") newYearMorning
           [sampleRevision "t0" "Appendicitis" "Surgery" "2024-01-01" 7] sampleUpcoming).
  - by left.
  - reflexivity.
  - vm_compute. discriminate.
Defined.

(** ** Reminders, in full *)

Section ReminderMore.
Import Model DateFns World AddTopic.

Lemma epochDay_setHours (d : Date) (h m s ms : Z) :
  0 <= ((h * 60 + m) * 60 + s) * 1000 + ms < msPerDay ->
  epochDay (setHours d h m s ms) = epochDay d /\
  msOfDay (setHours d h m s ms) = ((h * 60 + m) * 60 + s) * 1000 + ms.
Proof.
  intros Hrange. unfold setHours, epochDay at 1, msOfDay at 1. simpl.
  unfold msPerDay in *. rewrite <- Z.add_assoc. split.
  - rewrite Z.div_add_l by lia. rewrite Z.div_small by lia. lia.
  - rewrite Z.add_comm, Z.mod_add by lia. apply Z.mod_small. lia.
Qed.

(** The trigger of a revision day is 9:00:00.000 of the calendar day that
    many days after the day of [now]. *)
Lemma revisionDate_day (now : Date) (day : Z) :
  epochDay (revisionDate now day) = epochDay now + day /\
  msOfDay (revisionDate now day) = 32400000.
Proof.
  unfold revisionDate.
  destruct (epochDay_setHours (addDays now day) 9 0 0 0) as [Hday Hms];
    [unfold msPerDay; lia|].
  by rewrite Hday, Hms, epochDay_addDays.
Qed.

(** Every notification call of [addTopic] stems from an accepted creation
    of a filled form, off the web, with the selected subject loaded. *)
Lemma addTopic_call_origin (API_URL : string) (st : State) (os : OS) (now : Date)
    (accepts : NotificationRequest -> bool)
    (response : Response unit) (call : NotificationRequest) :
  In call (notifications (snd (addTopic API_URL st os now accepts response))) ->
  response = Ok tt /\ os <> web /\
  JS.truthy (selectedSubjectId st) = true /\
  JS.truthy (JS.trim (AddTopic.topicName st)) = true /\
  exists subject day,
    List.find (fun s => String.eqb (s_id s) (selectedSubjectId st)) (subjects st)
    = Some subject /\
    In day revisionDays /\
    call = notification now (JS.trim (AddTopic.topicName st)) (s_name subject) day.
Proof.
  destruct (JS.truthy (selectedSubjectId st)) eqn:Hselected;
    [|unfold addTopic; rewrite Hselected; simpl; done].
  destruct (JS.truthy (JS.trim (AddTopic.topicName st))) eqn:Hname;
    [|unfold addTopic; rewrite Hselected, Hname; simpl; done].
  destruct response as [[]| |];
    [|unfold addTopic; rewrite Hselected, Hname; simpl; done..].
  rewrite addTopic_accepted by done.
  destruct (List.find _ _) as [subject|] eqn:Hfound; [|done].
  unfold scheduleNotifications.
  destruct (OS_eqb os web) eqn:Hos; [done|].
  rewrite scheduleLoop_calls. intros (day & <- & Hday)%attempted_In%in_map_iff.
  apply filter_In in Hday as [Hday _].
  split; [done|]. split; [by intros ->|]. split; [done|]. split; [done|].
  by exists subject, day.
Qed.

(** X8: [addTopic] never schedules a reminder unless the store accepted the
    topic, the platform is not web, the form was filled and the selected
    subject is among the loaded ones; and it schedules at most three. *)
Theorem reminders_only_when_accepted (API_URL : string) (st : State) (os : OS)
    (now : Date) (accepts : NotificationRequest -> bool) (response : Response unit) :
  let calls := notifications (snd (addTopic API_URL st os now accepts response)) in
  (length calls <= 3)%nat /\
  (calls <> [] ->
   response = Ok tt /\ os <> web /\
   JS.truthy (selectedSubjectId st) = true /\
   JS.whitespaceOnly (AddTopic.topicName st) = false /\
   exists subject, In subject (subjects st) /\ s_id subject = selectedSubjectId st).
Proof.
  intros calls. split.
  - subst calls.
    destruct (JS.truthy (selectedSubjectId st)) eqn:Hselected;
      [|unfold addTopic; rewrite Hselected; simpl; lia].
    destruct (JS.truthy (JS.trim (AddTopic.topicName st))) eqn:Hname;
      [|unfold addTopic; rewrite Hselected, Hname; simpl; lia].
    destruct response as [[]| |];
      [|unfold addTopic; rewrite Hselected, Hname; simpl; lia..].
    rewrite addTopic_accepted by done.
    destruct (List.find _ _); [|simpl; lia].
    unfold scheduleNotifications. destruct (OS_eqb os web); [simpl; lia|].
    rewrite scheduleLoop_calls, revisionDays_future.
    etrans; [apply attempted_length|]. simpl. lia.
  - destruct calls as [|call rest] eqn:Hcalls; [done|]. intros _.
    destruct (addTopic_call_origin API_URL st os now accepts response call)
      as (Hok & Hos & Hselected & Hname & subject & day & Hfound & _).
    { fold calls. rewrite Hcalls. by left. }
    split; [done|]. split; [done|]. split; [done|]. split.
    + destruct (JS.whitespaceOnly (AddTopic.topicName st)) eqn:Hblank; [|done].
      apply trim_falsy_iff in Hblank. congruence.
    + exists subject. apply find_some in Hfound as [Hin Hid].
      split; [done|]. by apply String.eqb_eq.
Qed.

(** X9: every reminder that [addTopic] schedules fires at 9:00:00.000, on
    the calendar day 2, 7 or 14 days after the day of the creation, which is
    strictly in the future, and is about the trimmed topic name. *)
Theorem reminders_at_nine (API_URL : string) (st : State) (os : OS)
    (now : Date) (accepts : NotificationRequest -> bool)
    (response : Response unit) (call : NotificationRequest)
    (Hcall : In call (notifications (snd (addTopic API_URL st os now accepts response)))) :
  msOfDay (n_trigger_date call) = 9 * 3600000 /\
  epochDay (n_trigger_date call) = epochDay now + n_data_day call /\
  (n_data_day call = 2 \/ n_data_day call = 7 \/ n_data_day call = 14) /\
  after (n_trigger_date call) now = true /\
  n_data_topicName call = JS.trim (AddTopic.topicName st) /\
  n_title call = "Time to revise: " +:+ JS.trim (AddTopic.topicName st).
Proof.
  destruct (addTopic_call_origin _ _ _ _ _ _ _ Hcall)
    as (_ & _ & _ & _ & subject & day & _ & Hday & ->).
  simpl. destruct (revisionDate_day now day) as [Hepoch Hms].
  assert (Hdays : day = 2 \/ day = 7 \/ day = 14).
  { unfold revisionDays in Hday. simpl in Hday. lia. }
  repeat split; try done. apply revisionDate_after. lia.
Qed.

Lemma attempted_prefix {A : Type} (accepts : A -> bool) (requests : list A) :
  attempted accepts requests
  = take (length (attempted accepts requests)) requests.
Proof.
  induction requests as [|r rest IH]; simpl; [done|].
  destruct (accepts r); simpl; [by rewrite <- IH|done].
Qed.

(** X10: off the web, the reminders handed to the scheduling capability on
    a day are for the dates that the schedule preview rendered on that day
    shows, in the preview's order, as far as the calls get: all three dates
    when no call is rejected. *)
Theorem reminders_match_preview (accepts : NotificationRequest -> bool)
    (os : OS) (now today : Date) (topicName subjectName : string)
    (Hos : os <> web)
    (Hsameday : epochDay today = epochDay now) :
  let dates :=
    map (fun call => format_dd_MMM_yyyy (n_trigger_date call))
        (notifications (fst (scheduleNotifications accepts os now topicName subjectName))) in
  dates = take (length dates) (map snd (schedulePreview today)) /\
  ((forall request, accepts request = true) ->
   dates = map snd (schedulePreview today)).
Proof.
  assert (Hpreview :
    map (fun call => format_dd_MMM_yyyy (n_trigger_date call))
        (map (notification now topicName subjectName) revisionDays)
    = map snd (schedulePreview today)).
  { simpl. unfold format_dd_MMM_yyyy.
    rewrite !epochDay_addDays, Hsameday.
    by rewrite !(proj1 (revisionDate_day _ _)). }
  intros dates. subst dates. unfold scheduleNotifications.
  assert (OS_eqb os web = false) as -> by (by destruct os).
  rewrite scheduleLoop_calls, revisionDays_future. split.
  - rewrite length_map, <- Hpreview.
    rewrite attempted_prefix at 1.
    symmetry. apply firstn_map.
  - intros Hall. rewrite attempted_all by (intros; apply Hall). exact Hpreview.
Qed.
End ReminderMore.

Lemma reminders_at_nine_witness :
  let calls :=
    World.notifications
      (snd (AddTopic.addTopic "http://store" (readyForm [surgery]) World.android
              newYearMorning alwaysAccepts (World.Ok tt))) in
  Forall (fun call => DateFns.msOfDay (World.n_trigger_date call) = 9 * 3600000) calls /\
  length calls = 3%nat.
Proof.
  split; [|reflexivity].
  apply List.Forall_forall. intros call Hcall.
  by destruct (reminders_at_nine "http://store" (readyForm [surgery]) World.android
                 newYearMorning alwaysAccepts (World.Ok tt) call Hcall) as [Hnine _].
Defined.

Lemma reminders_match_preview_witness :
  map (fun call => DateFns.format_dd_MMM_yyyy (World.n_trigger_date call))
      (World.notifications
         (fst (AddTopic.scheduleNotifications alwaysAccepts World.ios newYearMorning
                 "Bowel Obstruction" "Surgery")))
  = ["03 Jan 2024"; "08 Jan 2024"; "15 Jan 2024"].
Proof.
  destruct (reminders_match_preview alwaysAccepts World.ios newYearMorning
              (DateFns.ofCivil 2024 1 1) "Bowel Obstruction" "Surgery")
    as [_ Hall]; [discriminate | reflexivity |].
  rewrite Hall; [reflexivity|]. by intros request.
Defined.

Lemma reminders_only_when_accepted_witness :
  World.notifications
    (snd (AddTopic.addTopic "http://store" (readyForm [surgery]) World.android
            newYearMorning alwaysAccepts (World.Ok tt))) <> [] /\
  exists subject, In subject [surgery] /\ Model.s_id subject = "s1".
Proof.
  assert (Hcalls : World.notifications
            (snd (AddTopic.addTopic "http://store" (readyForm [surgery]) World.android
                    newYearMorning alwaysAccepts (World.Ok tt))) <> [])
    by (vm_compute; discriminate).
  split; [exact Hcalls|].
  destruct (reminders_only_when_accepted "http://store" (readyForm [surgery])
              World.android newYearMorning alwaysAccepts (World.Ok tt)) as [_ Horigin].
  by destruct (Horigin Hcalls) as (_ & _ & _ & _ & Hsubject).
Defined.

(** ** What [trim] leaves *)

Section TrimMore.
Import JS.

Lemma chars_app (a b : string) :
  list_ascii_of_string (a +:+ b) = list_ascii_of_string a ++ list_ascii_of_string b.
Proof. induction a as [|c a IH]; simpl; [done|]. by rewrite IH. Qed.

Lemma chars_inj (a b : string) :
  list_ascii_of_string a = list_ascii_of_string b -> a = b.
Proof.
  intros H. rewrite <- (string_of_list_ascii_of_string a),
    <- (string_of_list_ascii_of_string b). by rewrite H.
Qed.

Lemma rev_rev (s : string) : String.rev (String.rev s) = s.
Proof. apply chars_inj. by rewrite !chars_rev, rev_involutive. Qed.

(** [trimStart] removes a run of blanks ... *)
Lemma trimStart_split (s : string) :
  exists blanks, s = blanks +:+ trimStart s /\ whitespaceOnly blanks = true.
Proof.
  induction s as [|c s (blanks & Hs & Hblanks)]; simpl.
  - by exists EmptyString.
  - destruct (isWhiteSpace c) eqn:Hc.
    + exists (String c blanks). split.
      * simpl. unfold String.app in *. simpl. by rewrite <- Hs.
      * unfold whitespaceOnly in *. simpl. by rewrite Hc.
    + by exists EmptyString.
Qed.

(** ... up to the first non-blank. *)
Lemma trimStart_head (s : string) (c : ascii) :
  head (list_ascii_of_string (trimStart s)) = Some c -> isWhiteSpace c = false.
Proof.
  induction s as [|c' s IH]; simpl; [done|].
  destruct (isWhiteSpace c') eqn:Hc; [exact IH|].
  simpl. by intros [= <-].
Qed.

Lemma trimStart_fixed (s : string) :
  (forall c, head (list_ascii_of_string s) = Some c -> isWhiteSpace c = false) ->
  trimStart s = s.
Proof.
  destruct s as [|c s]; simpl; [done|]. intros H.
  by rewrite (H c eq_refl).
Qed.

Lemma last_rev {A : Type} (l : list A) : last (rev l) = head l.
Proof. destruct l as [|x l]; simpl; [done|]. by rewrite last_snoc. Qed.

(** The trimmed string is the string without a leading and a trailing run
    of blanks; it neither starts nor ends with a blank, and trimming it
    again changes nothing. *)
Lemma trim_spec (s : string) :
  trimmed (trim s) /\
  trim (trim s) = trim s /\
  exists before after,
    list_ascii_of_string s = before ++ list_ascii_of_string (trim s) ++ after /\
    forallb isWhiteSpace before = true /\ forallb isWhiteSpace after = true.
Proof.
  unfold trim, trimEnd.
  set (t := trimStart s). set (u := trimStart (String.rev t)).
  destruct (trimStart_split s) as (before & Hs & Hbefore). fold t in Hs.
  destruct (trimStart_split (String.rev t)) as (blanks & Hrev & Hblanks). fold u in Hrev.
  assert (Ht : list_ascii_of_string t
               = list_ascii_of_string (String.rev u) ++ rev (list_ascii_of_string blanks)).
  { apply (f_equal list_ascii_of_string) in Hrev.
    rewrite chars_rev, chars_app in Hrev.
    apply (f_equal (@rev ascii)) in Hrev.
    rewrite rev_involutive, rev_app_distr in Hrev. by rewrite chars_rev. }
  assert (Hlast : forall c, last (list_ascii_of_string (String.rev u)) = Some c ->
                            isWhiteSpace c = false).
  { intros c. rewrite chars_rev, last_rev. apply trimStart_head. }
  assert (Hhead : forall c, head (list_ascii_of_string (String.rev u)) = Some c ->
                            isWhiteSpace c = false).
  { intros c Hc. apply (trimStart_head s). fold t. rewrite Ht.
    destruct (list_ascii_of_string (String.rev u)); [discriminate|done]. }
  split; [by split|]. split.
  - rewrite (trimStart_fixed (String.rev u)) by done.
    rewrite rev_rev. unfold u at 1.
    rewrite (trimStart_fixed (trimStart (String.rev t))); [done|].
    apply trimStart_head.
  - exists (list_ascii_of_string before), (rev (list_ascii_of_string blanks)).
    split; [|split].
    + by rewrite Hs, chars_app, Ht.
    + exact Hbefore.
    + rewrite <- chars_rev. fold (whitespaceOnly (String.rev blanks)).
      by rewrite whitespaceOnly_rev.
Qed.
End TrimMore.

(** ** Names on their way to the store *)

Section NamesSent.
Import Model World.

Lemma sentFor_trim (typed : string) :
  JS.truthy (JS.trim typed) = true -> sentFor typed (JS.trim typed).
Proof.
  intros Htruthy. destruct (trim_spec typed) as (Htrimmed & _ & Hsplit).
  split; [done|]. split; [done|]. split; [done|]. exact Hsplit.
Qed.

Lemma scheduleNotifications_sentNames (accepts : NotificationRequest -> bool)
    (os : OS) (now : DateFns.Date) (topicName subjectName : string) :
  sentNames (fst (AddTopic.scheduleNotifications accepts os now topicName subjectName))
  = [].
Proof.
  unfold AddTopic.scheduleNotifications. destruct (OS_eqb os web); [done|].
  generalize AddTopic.revisionDays. intros days.
  induction days as [|day days IH]; simpl; [done|].
  destruct (DateFns.after _ _); [|exact IH].
  destruct (accepts _); [|done].
  destruct (AddTopic.scheduleLoop accepts now topicName subjectName days). exact IH.
Qed.

(** X11: every name that [addSubject], [updateSubject], [addTopic] or
    [updateTopic] sends to the store is the typed name without its leading
    and trailing blanks; it is never empty and never starts or ends with a
    blank. *)
Theorem names_sent_trimmed (API_URL id : string) :
  (forall st response name,
      In name (sentNames (snd (Subjects.addSubject API_URL st response))) ->
      sentFor (Subjects.newSubjectName st) name) /\
  (forall st response name,
      In name (sentNames (snd (Subjects.updateSubject API_URL st response))) ->
      sentFor (Subjects.editSubjectName st) name) /\
  (forall st os now accepts response name,
      In name (sentNames (snd (AddTopic.addTopic API_URL st os now accepts response))) ->
      sentFor (AddTopic.topicName st) name) /\
  (forall st response name,
      In name (sentNames (snd (EditTopic.updateTopic API_URL id st response))) ->
      sentFor (EditTopic.topicName st) name).
Proof.
  split; [|split; [|split]].
  - intros st response name. unfold Subjects.addSubject.
    destruct (JS.truthy (JS.trim (Subjects.newSubjectName st))) eqn:Hname;
      [|simpl; tauto].
    destruct response; simpl; (intros [<-|[]]; by apply sentFor_trim).
  - intros st response name. unfold Subjects.updateSubject.
    destruct (Subjects.editingSubject st); [|simpl; tauto].
    destruct (JS.truthy (JS.trim (Subjects.editSubjectName st))) eqn:Hname;
      [|simpl; tauto].
    destruct response; simpl; (intros [<-|[]]; by apply sentFor_trim).
  - intros st os now accepts response name. unfold AddTopic.addTopic.
    destruct (JS.truthy (AddTopic.selectedSubjectId st)); [|simpl; tauto].
    destruct (JS.truthy (JS.trim (AddTopic.topicName st))) eqn:Hname;
      [|simpl; tauto].
    simpl. intros [<-|Hrest]; [by apply sentFor_trim|].
    exfalso. destruct response; simpl in Hrest; try tauto.
    assert (Hscheduled :
      sentNames (fst match List.find (fun s => String.eqb (s_id s)
                                        (AddTopic.selectedSubjectId st))
                                     (AddTopic.subjects st) with
                     | Some selectedSubject =>
                         AddTopic.scheduleNotifications accepts os now
                           (JS.trim (AddTopic.topicName st)) (s_name selectedSubject)
                     | None => ([], true)
                     end) = []).
    { destruct (List.find _ _); [apply scheduleNotifications_sentNames|done]. }
    destruct (match List.find _ _ with Some _ => _ | None => _ end)
      as [scheduled completed].
    simpl in Hscheduled.
    destruct completed; unfold sentNames in *; rewrite flat_map_app in Hrest;
      apply in_app_iff in Hrest as [Hrest|Hrest];
      try (by rewrite Hscheduled in Hrest); simpl in Hrest; tauto.
  - intros st response name. unfold EditTopic.updateTopic.
    destruct (JS.truthy (JS.trim (EditTopic.topicName st))) eqn:Hname;
      [|simpl; tauto].
    destruct response; simpl; (intros [<-|[]]; by apply sentFor_trim).
Qed.

(** X12: once the store has accepted a new subject or a renaming, the form
    is cleared, so that submitting again without typing is rejected locally
    and no second request goes out; after a refusal the typed name is kept
    for a retry. *)
Theorem resubmit_after_success_rejected (API_URL : string) (st : Subjects.State)
    (again : Response unit) :
  let added := fst (Subjects.addSubject API_URL st (Ok tt)) in
  let renamed := fst (Subjects.updateSubject API_URL st (Ok tt)) in
  rejectedLocally added (Subjects.addSubject API_URL added again) /\
  rejectedLocally renamed (Subjects.updateSubject API_URL renamed again) /\
  (forall detail, fst (Subjects.addSubject API_URL st (Failed detail)) = st) /\
  (forall detail, fst (Subjects.updateSubject API_URL st (Failed detail)) = st) /\
  fst (Subjects.addSubject API_URL st Threw) = st /\
  fst (Subjects.updateSubject API_URL st Threw) = st.
Proof.
  unfold Subjects.addSubject, Subjects.updateSubject.
  destruct (JS.truthy (JS.trim (Subjects.newSubjectName st))) eqn:Hnew;
    destruct (Subjects.editingSubject st) as [editing|] eqn:Hediting;
    destruct (JS.truthy (JS.trim (Subjects.editSubjectName st))) eqn:Hedit;
    simpl; rewrite ?Hnew, ?Hediting, ?Hedit; simpl;
    repeat split; try done; by eexists.
Qed.
End NamesSent.

Lemma names_sent_trimmed_witness :
  In "Bowel Obstruction"
     (sentNames (snd (AddTopic.addTopic "http://store" (readyForm [surgery])
                        World.android newYearMorning alwaysAccepts (World.Ok tt)))) /\
  sentFor " Bowel Obstruction " "Bowel Obstruction".
Proof.
  assert (Hsent : In "Bowel Obstruction"
     (sentNames (snd (AddTopic.addTopic "http://store" (readyForm [surgery])
                        World.android newYearMorning alwaysAccepts (World.Ok tt)))))
    by (vm_compute; auto).
  split; [exact Hsent|].
  destruct (names_sent_trimmed "http://store" "t1") as (_ & _ & Htopic & _).
  exact (Htopic _ _ _ _ _ _ Hsent).
Defined.

(** ** From the loaded subjects to the new topic *)

Section AddTopicFlow.
Import Model DateFns World AddTopic.
Variable API_URL : string.

(** X13: when the screen is opened without a subject in the route and the
    store returns no subject (an empty list, a refusal or a rejected
    promise), every attempt to add a topic, whatever was typed, ends with the
    alert to select a subject, and nothing is sent. *)
Theorem no_subject_no_topic (subjectId : option string)
    (subjectsRes : Response (list Subject)) (typed : string) (os : OS) (now : Date)
    (accepts : NotificationRequest -> bool) (response : Response unit)
    (Hroute : given subjectId = false)
    (Hnone : forall first rest, subjectsRes <> Ok (first :: rest)) :
  let form := setTopicName (fst (fetchSubjects API_URL (init subjectId) subjectId subjectsRes))
                           typed in
  addTopic API_URL form os now accepts response
  = (form, [Alert "Error" "Please select a subject"]).
Proof.
  assert (Hempty : JS.orString subjectId EmptyString = EmptyString).
  { destruct subjectId as [[|c s]|]; simpl in *; done. }
  destruct subjectsRes as [[|first rest]| |]; simpl;
    try (by destruct (Hnone first rest));
    unfold addTopic; simpl; by rewrite Hempty.
Qed.

(** X14: when the screen is opened without a subject in the route and the
    store returns subjects, the first of them is selected; a topic with a
    non-blank name is then created under that subject, and off the web the
    reminder calls made for it, one per revision day in turn up to and
    including the first rejected call, carry that subject's name. *)
Theorem first_subject_preselected (subjectId : option string)
    (first : Subject) (rest : list Subject) (typed : string) (os : OS) (now : Date)
    (accepts : NotificationRequest -> bool)
    (Hroute : given subjectId = false)
    (Hid : JS.truthy (s_id first) = true)
    (Hname : JS.whitespaceOnly typed = false) :
  let form := setTopicName
                (fst (fetchSubjects API_URL (init subjectId) subjectId (Ok (first :: rest))))
                typed in
  let out := addTopic API_URL form os now accepts (Ok tt) in
  selectedSubjectId form = s_id first /\
  head (snd out)
  = Some (Fetch "POST" (API_URL +:+ "/api/topics")
            (Some [("subject_id", JS.JStr (s_id first));
                   ("name", JS.JStr (JS.trim typed));
                   ("notes", JS.JStr EmptyString)])) /\
  (os <> web ->
   notifications (snd out)
   = attempted accepts
       (map (notification now (JS.trim typed) (s_name first)) revisionDays)).
Proof.
  assert (Htyped : JS.truthy (JS.trim typed) = true).
  { destruct (JS.truthy (JS.trim typed)) eqn:H; [done|].
    apply trim_falsy_iff in H. congruence. }
  intros form out.
  assert (Hselected : selectedSubjectId form = s_id first).
  { subst form. simpl. by rewrite Hroute. }
  split; [done|]. split.
  - subst out. unfold addTopic. rewrite Hselected, Hid. simpl. by rewrite Htyped.
  - intros Hos. subst out.
    rewrite addTopic_accepted by (by rewrite ?Hselected).
    rewrite Hselected. simpl. rewrite String.eqb_refl.
    unfold scheduleNotifications.
    assert (OS_eqb os web = false) as -> by (by destruct os).
    by rewrite scheduleLoop_calls, revisionDays_future.
Qed.
End AddTopicFlow.

Lemma no_subject_no_topic_witness :
  let form := AddTopic.setTopicName
                (fst (AddTopic.fetchSubjects "http://store" (AddTopic.init None) None
                        World.Threw))
                "Bowel Obstruction" in
  AddTopic.addTopic "http://store" form World.ios newYearMorning alwaysAccepts
    (World.Ok tt)
  = (form, [World.Alert "Error" "Please select a subject"]).
Proof.
  apply (no_subject_no_topic "http://store" None World.Threw "Bowel Obstruction");
    [reflexivity | discriminate].
Defined.

Lemma first_subject_preselected_witness :
  let form := AddTopic.setTopicName
                (fst (AddTopic.fetchSubjects "http://store" (AddTopic.init None) None
                        (World.Ok [surgery; medicine])))
                "Bowel Obstruction" in
  AddTopic.selectedSubjectId form = "s1".
Proof.
  by destruct (first_subject_preselected "http://store" None surgery [medicine]
                 "Bowel Obstruction" World.ios newYearMorning alwaysAccepts
                 eq_refl eq_refl eq_refl) as [Hselected _].
Defined.

(** ** Topic counts of the subjects screen *)

Section TopicCounts.
Import Model World Subjects.
Variable API_URL : string.
Variable topicsRes : nat -> Response (list Topic).

Lemma countTopics_other (i : nat) (data : list Subject) (counts : gmap string Z)
    (id : string) :
  ~ In id (map s_id data) ->
  fst (countTopics API_URL topicsRes i data counts) !! id = counts !! id.
Proof.
  revert i counts. induction data as [|subject rest IH]; intros i counts Hid; [done|].
  simpl in *.
  destruct (countTopics API_URL topicsRes (S i) rest _) as [final effects] eqn:Hrest.
  simpl. change final with (fst (final, effects)). rewrite <- Hrest.
  rewrite IH by tauto.
  destruct (topicsRes i); rewrite ?lookup_insert_ne; tauto.
Qed.

Lemma countTopics_requests (i : nat) (data : list Subject) (counts : gmap string Z) :
  length (snd (countTopics API_URL topicsRes i data counts)) = length data /\
  forallb isNetworkCall (snd (countTopics API_URL topicsRes i data counts)) = true.
Proof.
  revert i counts. induction data as [|subject rest IH]; intros i counts; [done|].
  simpl.
  match goal with
  | |- context [countTopics API_URL topicsRes (S i) rest ?c] =>
      destruct (IH (S i) c) as [Hlen Hall];
      destruct (countTopics API_URL topicsRes (S i) rest c) as [final effects]
  end.
  simpl in *. by rewrite Hlen, Hall.
Qed.

Lemma countTopics_lookup (i k : nat) (data : list Subject) (counts : gmap string Z)
    (subject : Subject) :
  NoDup (map s_id data) ->
  data !! k = Some subject ->
  fst (countTopics API_URL topicsRes i data counts) !! s_id subject
  = match topicsRes (i + k)%nat with
    | Ok topics => Some (Z.of_nat (length topics))
    | Failed _ => counts !! s_id subject
    | Threw => Some 0
    end.
Proof.
  revert i k counts. induction data as [|head rest IH]; intros i k counts Hnodup Hk;
    [done|].
  simpl in Hnodup. apply NoDup_cons in Hnodup as [Hhead Hnodup].
  rewrite list_elem_of_In in Hhead.
  simpl.
  destruct (countTopics API_URL topicsRes (S i) rest _) as [final effects] eqn:Hrest.
  simpl. change final with (fst (final, effects)). rewrite <- Hrest.
  destruct k as [|k]; simpl in Hk.
  - injection Hk as ->. rewrite countTopics_other by done.
    rewrite Nat.add_0_r.
    destruct (topicsRes i); by rewrite ?lookup_insert_eq.
  - rewrite (IH (S i) k) by done.
    replace (S i + k)%nat with (i + S k)%nat by lia.
    destruct (topicsRes (i + S k)); try done.
    assert (Hne : s_id head <> s_id subject).
    { intros Heq. apply Hhead. rewrite Heq. apply in_map.
      apply list_elem_of_In. by eapply list_elem_of_lookup_2. }
    destruct (topicsRes i); by rewrite ?lookup_insert_ne.
Qed.

(** X15: after the subjects screen has loaded subjects with distinct ids,
    the card of each subject shows the number of topics the store returned
    for it, and 0 when that request was refused or failed; one request per
    subject went out after the first one; counts of subjects that are no
    longer listed are dropped.  When the loading of the subjects itself fails,
    the screen keeps its subjects and counts. *)
Theorem shown_topic_counts (st : State) (data : list Subject)
    (Hdistinct : NoDup (map s_id data)) :
  let out := fetchSubjects API_URL st (Ok data) topicsRes in
  subjects (fst out) = data /\
  length (snd out) = S (length data) /\
  forallb isNetworkCall (snd out) = true /\
  (forall k subject, data !! k = Some subject ->
     shownTopicCount (fst out) subject
     = match topicsRes k with
       | Ok topics => Z.of_nat (length topics)
       | _ => 0
       end) /\
  (forall id, ~ In id (map s_id data) -> topicCounts (fst out) !! id = None) /\
  (forall detail, fst (fetchSubjects API_URL st (Failed detail) topicsRes) = st) /\
  fst (fetchSubjects API_URL st Threw topicsRes) = st.
Proof.
  unfold fetchSubjects.
  destruct (countTopics API_URL topicsRes 0 data ∅) as [counts effects] eqn:Hloop.
  pose proof (countTopics_requests 0 data ∅) as [Hlen Hall].
  rewrite Hloop in Hlen, Hall. simpl in *.
  split; [done|]. split; [by rewrite Hlen|]. split; [done|]. split; [|split; [|done]].
  - intros k subject Hk. unfold shownTopicCount. simpl.
    change counts with (fst (counts, effects)). rewrite <- Hloop.
    rewrite (countTopics_lookup 0 k) by done. simpl.
    destruct (topicsRes k) as [topics| |]; simpl; [|done..].
    destruct (length topics); simpl; [done|].
    by destruct (Z.eqb_spec (Z.pos (Pos.of_succ_nat n)) 0).
  - intros id Hid. change counts with (fst (counts, effects)). rewrite <- Hloop.
    by rewrite countTopics_other.
Qed.
End TopicCounts.

Lemma shown_topic_counts_witness :
  let st := fst (Subjects.fetchSubjects "http://store" Subjects.init
                   (World.Ok [surgery; medicine]) sampleTopicAnswers) in
  Subjects.shownTopicCount st surgery = 2 /\
  Subjects.shownTopicCount st medicine = 0.
Proof.
  destruct (shown_topic_counts "http://store" sampleTopicAnswers Subjects.init
              [surgery; medicine]) as (_ & _ & _ & Hshown & _).
  { simpl. compute_done. }
  split.
  - exact (Hshown 0%nat surgery eq_refl).
  - exact (Hshown 1%nat medicine eq_refl).
Defined.

(** ** The checkpoint list of a topic card *)

Section DisplayOrder.
Import Model SubjectDetail.

Lemma filter_perm {A : Type} (f : A -> bool) (l l' : list A) :
  Permutation l l' -> Permutation (List.filter f l) (List.filter f l').
Proof.
  induction 1 as [|x l l' _ IH|x y l|l l' l'' _ IH1 _ IH2]; simpl.
  - done.
  - destruct (f x); [by constructor|done].
  - destruct (f x), (f y); try done. apply perm_swap.
  - by etrans.
Qed.

(** Sorting an array that is in ascending key order changes nothing. *)
Lemma sort_fixed {A : Type} (cmp : A -> A -> option Z) (key : A -> Z) (l : list A) :
  keyed cmp key l -> ascending key l -> JS.sort cmp l = l.
Proof.
  intros Hkey Hasc. induction Hasc as [|x l Hasc IH Hx]; simpl; [done|].
  rewrite IH by (intros a b Ha Hb; apply Hkey; by right).
  destruct l as [|y l]; simpl; [done|].
  unfold JS.swaps. rewrite (Hkey x y) by (simpl; auto).
  apply Forall_cons in Hx as [Hxy _].
  by destruct (Z.ltb_spec 0 (key x - key y)); [lia|].
Qed.

Lemma byDayNumber_keyed (l : list RevisionDate) :
  keyed byDayNumber rd_day_number l.
Proof. by intros a b _ _. Qed.

(** X16: the checkpoint list of a topic card is the topic's checkpoints,
    each once, in ascending day order; rendering the card again leaves the
    order as it is, and the in-place sort changes neither the number of
    completed checkpoints nor the status colour.  A topic with the
    checkpoints of days 2, 7 and 14 in any order is listed as 2, 7, 14. *)
Theorem displayOrder_spec (revisionDates : list RevisionDate) :
  Permutation (displayOrder revisionDates) revisionDates /\
  StronglySorted (fun a b => rd_day_number a <= rd_day_number b)
                 (displayOrder revisionDates) /\
  displayOrder (displayOrder revisionDates) = displayOrder revisionDates /\
  completedCount (displayOrder revisionDates) = completedCount revisionDates /\
  getRevisionStatusColor (displayOrder revisionDates)
  = getRevisionStatusColor revisionDates /\
  (Permutation (map rd_day_number revisionDates) [2; 7; 14] ->
   map rd_day_number (displayOrder revisionDates) = [2; 7; 14]).
Proof.
  assert (Hperm : Permutation (displayOrder revisionDates) revisionDates)
    by apply sort_perm.
  assert (Hasc : ascending rd_day_number (displayOrder revisionDates))
    by apply sort_ascending, byDayNumber_keyed.
  assert (Hcount : completedCount (displayOrder revisionDates)
                   = completedCount revisionDates).
  { unfold completedCount. apply Permutation_length. by apply filter_perm. }
  split; [done|]. split; [done|]. split; [|split; [done|split]].
  - apply (sort_fixed _ rd_day_number); [apply byDayNumber_keyed|done].
  - unfold getRevisionStatusColor. by rewrite Hcount.
  - intros Hdays.
    assert (Hsorted : StronglySorted Z.le (map rd_day_number (displayOrder revisionDates))).
    { clear -Hasc. induction Hasc as [|x l _ IH Hx]; simpl; constructor; [done|].
      apply List.Forall_forall. intros d (y & <- & Hy)%in_map_iff.
      rewrite List.Forall_forall in Hx. by apply Hx. }
    assert (Hdays' : Permutation (map rd_day_number (displayOrder revisionDates)) [2; 7; 14]).
    { by rewrite Hperm. }
    revert Hsorted Hdays'. generalize (map rd_day_number (displayOrder revisionDates)).
    intros days Hsorted Hdays'.
    pose proof (Permutation_length Hdays') as Hlen.
    destruct days as [|a [|b [|c [|? ?]]]]; try discriminate.
    assert (Ha : In a [2; 7; 14]) by (apply (Permutation_in _ Hdays'); simpl; auto).
    assert (Hb : In b [2; 7; 14]) by (apply (Permutation_in _ Hdays'); simpl; auto).
    assert (Hc : In c [2; 7; 14]) by (apply (Permutation_in _ Hdays'); simpl; auto).
    assert (H2 : In 2 [a; b; c]) by (apply (Permutation_in _ (Permutation_sym Hdays')); simpl; auto).
    assert (H7 : In 7 [a; b; c]) by (apply (Permutation_in _ (Permutation_sym Hdays')); simpl; auto).
    assert (H14 : In 14 [a; b; c]) by (apply (Permutation_in _ (Permutation_sym Hdays')); simpl; auto).
    inversion Hsorted as [|? ? Hrest Hab]; subst.
    inversion Hrest as [|? ? _ Hbc]; subst.
    apply Forall_cons in Hab as [Hab [Hac _]%Forall_cons].
    apply Forall_cons in Hbc as [Hbc _].
    simpl in *. repeat f_equal; lia.
Qed.
End DisplayOrder.

Lemma displayOrder_spec_witness :
  map Model.rd_day_number (SubjectDetail.displayOrder sampleCheckpoints) = [2; 7; 14].
Proof.
  apply (displayOrder_spec sampleCheckpoints).
  simpl. apply (Permutation_cons_append [2; 7] 14).
Defined.

(** ** The next revision and the order of the checkpoints *)

Section NextRevisionOrder.
Import Model SubjectDetail.
Variable Date_getTime : string -> option Z.

Definition datesValid (l : list RevisionDate) : Prop :=
  forall rd, In rd l -> rd_completed rd = false -> is_Some (Date_getTime (rd_date rd)).

Lemma nextRevision_cases (l : list RevisionDate) :
  datesValid l ->
  (getNextRevision Date_getTime l = None /\
   forall rd, In rd l -> rd_completed rd = true) \/
  (exists next t,
     getNextRevision Date_getTime l = Some next /\
     In next l /\ rd_completed next = false /\
     Date_getTime (rd_date next) = Some t /\
     forall rd, In rd l -> rd_completed rd = false ->
       exists t', Date_getTime (rd_date rd) = Some t' /\ t <= t').
Proof.
  intros Hvalid. unfold getNextRevision.
  set (incomplete := List.filter (fun rd => negb (rd_completed rd)) l).
  assert (Hin : forall rd, In rd incomplete <-> In rd l /\ rd_completed rd = false).
  { intros rd. unfold incomplete. by rewrite filter_In, negb_true_iff. }
  destruct incomplete as [|first others] eqn:Hinc.
  - left. split; [done|]. by apply incomplete_nil_iff.
  - right. rewrite <- Hinc in *. replace (length incomplete =? 0)%nat with false
      by (rewrite Hinc; done).
    assert (Hkeyed : keyed (byDate Date_getTime)
                       (fun rd => default 0 (Date_getTime (rd_date rd))) incomplete).
    { apply byDate_keyed. intros x [? ?]%Hin. by apply Hvalid. }
    destruct (head (JS.sort (byDate Date_getTime) incomplete)) as [next|] eqn:Hhead.
    + destruct (sort_head_least _ _ incomplete next Hkeyed Hhead) as [Hnext Hleast].
      apply Hin in Hnext as [Hnext Hopen].
      destruct (Hvalid next Hnext Hopen) as [t Ht].
      exists next, t. repeat split; try done.
      intros rd Hrd Hrdopen. destruct (Hvalid rd Hrd Hrdopen) as [t' Ht'].
      exists t'. split; [done|].
      specialize (Hleast rd (proj2 (Hin rd) (conj Hrd Hrdopen))). simpl in Hleast.
      by rewrite Ht, Ht' in Hleast.
    + exfalso. pose proof (sort_perm (byDate Date_getTime) incomplete) as Hperm.
      destruct (JS.sort (byDate Date_getTime) incomplete); [|discriminate].
      apply Permutation_nil in Hperm. rewrite Hinc in Hperm. discriminate.
Qed.

(** X17: the date of the next revision of a topic does not depend on the
    order of its checkpoints: two arrangements of the same checkpoints, with
    valid dates, give a next revision of the same date, or both none.  So the
    in-place sort of a topic card does not move the next revision. *)
Theorem nextRevision_order_independent (l l' : list RevisionDate)
    (Hperm : Permutation l l') (Hvalid : datesValid l) :
  let dateOf := fun next : option RevisionDate =>
                  next ≫= (fun rd => Date_getTime (rd_date rd)) in
  dateOf (getNextRevision Date_getTime l) = dateOf (getNextRevision Date_getTime l') /\
  dateOf (getNextRevision Date_getTime (displayOrder l))
  = dateOf (getNextRevision Date_getTime l).
Proof.
  assert (Hgeneral : forall a b, Permutation a b -> datesValid a ->
            getNextRevision Date_getTime a ≫= (fun rd => Date_getTime (rd_date rd))
            = getNextRevision Date_getTime b ≫= (fun rd => Date_getTime (rd_date rd))).
  { intros a b Hab Ha.
    assert (Hb : datesValid b).
    { intros rd Hrd. apply Ha. by apply (Permutation_in _ (Permutation_sym Hab)). }
    destruct (nextRevision_cases a Ha)
      as [[-> Hall]|(next & t & -> & Hnext & Hopen & Ht & Hleast)];
      destruct (nextRevision_cases b Hb)
        as [[-> Hall']|(next' & t' & -> & Hnext' & Hopen' & Ht' & Hleast')]; simpl.
    - done.
    - apply (Permutation_in _ (Permutation_sym Hab)) in Hnext'.
      rewrite (Hall next' Hnext') in Hopen'. discriminate.
    - apply (Permutation_in _ Hab) in Hnext.
      rewrite (Hall' next Hnext) in Hopen. discriminate.
    - rewrite Ht, Ht'. f_equal.
      destruct (Hleast next') as (x & Hx & Hle);
        [by apply (Permutation_in _ (Permutation_sym Hab))|done|].
      destruct (Hleast' next) as (y & Hy & Hle');
        [by apply (Permutation_in _ Hab)|done|].
      rewrite Ht' in Hx. rewrite Ht in Hy.
      injection Hx as <-. injection Hy as <-. lia. }
  intros dateOf. subst dateOf. simpl. split; [by apply Hgeneral|].
  symmetry. apply Hgeneral; [|done].
  symmetry. apply sort_perm.
Qed.
End NextRevisionOrder.

Lemma nextRevision_order_independent_witness :
  SubjectDetail.getNextRevision DateFns.parseDateOnly
    (SubjectDetail.displayOrder sampleCheckpoints)
  ≫= (fun rd => DateFns.parseDateOnly (Model.rd_date rd))
  = SubjectDetail.getNextRevision DateFns.parseDateOnly sampleCheckpoints
    ≫= (fun rd => DateFns.parseDateOnly (Model.rd_date rd)).
Proof.
  apply (nextRevision_order_independent DateFns.parseDateOnly
           sampleCheckpoints sampleCheckpoints (Permutation_refl _)).
  intros rd Hrd _. simpl in Hrd.
  destruct Hrd as [<-|[<-|[<-|[]]]]; vm_compute; eauto.
Defined.

(** ** Selection and spinner over a run of the home screen *)

Section HomeRun.
Import Model Home World.
Variable API_URL : string.

Lemma step_selectedDate (st : State) (ev : Event) :
  selectedDate (step API_URL st ev)
  = match ev with
    | DayPress dateString => dateString
    | _ => selectedDate st
    end.
Proof.
  destruct ev as [now t u|now t u|dateString|topicId day response]; simpl.
  - unfold fetchRevisions. by destruct t, u.
  - unfold onRefresh, fetchRevisions. by destruct t, u.
  - done.
  - by destruct response.
Qed.

Lemma step_refreshing (st : State) (ev : Event) :
  refreshing st = false -> refreshing (step API_URL st ev) = false.
Proof.
  intros Hst. destruct ev as [now t u|now t u|dateString|topicId day response]; simpl.
  - unfold fetchRevisions. by destruct t, u.
  - unfold onRefresh, fetchRevisions. by destruct t, u.
  - done.
  - by destruct response.
Qed.

(** X18: over any run of the home screen, whatever the store answers, only
    a press on a day moves the selection: the selected date is the date of
    the last press, or the date of the mount when no day was pressed; and
    when the events have been handled the refresh spinner is off. *)
Theorem run_selection (mounted : DateFns.Date) (events : list Event) :
  selectedDate (run API_URL mounted events)
  = default (DateFns.format_yyyy_MM_dd mounted) (lastPressed events) /\
  refreshing (run API_URL mounted events) = false.
Proof.
  unfold run, lastPressed.
  assert (Hgeneral : forall st pressed,
    refreshing st = false ->
    selectedDate st = default (DateFns.format_yyyy_MM_dd mounted) pressed ->
    selectedDate (fold_left (step API_URL) events st)
    = default (DateFns.format_yyyy_MM_dd mounted)
        (fold_left (fun pressed ev =>
                      match ev with
                      | DayPress dateString => Some dateString
                      | _ => pressed
                      end) events pressed) /\
    refreshing (fold_left (step API_URL) events st) = false).
  { induction events as [|ev events IH]; intros st pressed Hrefreshing Hselected;
      simpl; [done|].
    apply IH; [by apply step_refreshing|].
    rewrite step_selectedDate. by destruct ev. }
  by apply Hgeneral.
Qed.
End HomeRun.

Lemma dateCounts_counts_witness :
  Home.dateCounts sampleUpcoming !! "2024-01-03" = Some 2 /\
  2 = Z.of_nat (length (Home.forDate sampleUpcoming "2024-01-03")).
Proof.
  assert (Hcount : Home.dateCounts sampleUpcoming !! "2024-01-03" = Some 2)
    by (vm_compute; reflexivity).
  split; [exact Hcount|].
  destruct (dateCounts_counts sampleUpcoming "2024-01-03") as [_ Hcounts].
  by destruct (Hcounts 2 Hcount).
Defined.
